(** * The PubMed retrieval pipeline of [scraper.py]

    A shallow embedding of [PubMedScraper] (search, batch fetch, XML record
    parsing, detail-page extraction and the orchestrating
    [get_research_data]) together with the properties its specification
    states about it.

    Conventions.
    - A Python [str] is a [string]; its characters are read as code points
      below 256.  The one document of the examples that needs a character
      beyond, a lone surrogate, writes it in three bytes; a library
      parser is all that ever sees it.
    - Values decoded from JSON are [Py.value]s.  The article dictionaries
      built by [_extract_article_data] always carry the same keys and are
      the record [article]; a key that is not set yet is [None] there.
    - The three library parsers are parameters of the scraper, and every
      theorem holds whatever they compute.  Each either returns or
      raises, and may raise anything: [response.json()] raises requests'
      [JSONDecodeError] (a [RequestException]) on a body that is not
      JSON, and [ValueError] or [RecursionError] on some that are;
      [ET.fromstring] raises [ET.ParseError], and [UnicodeEncodeError]
      on a text holding a lone surrogate; [BeautifulSoup(_,
      "html.parser")] raises [ParserRejectedMarkup] on markup the parser
      gives up on.
    - Network traffic, [time.sleep] and [print] are events appended to a
      log (newest first); [time.sleep] and [print] themselves return.  A
      [Get] event records the call of [session.get]; how the call ends
      (an exception of any class, or a response) is a function of the
      log so far, the call at its head. *)

From Stdlib Require Import List String Ascii ZArith Lia Bool Arith.
From Stdlib Require Import PrimFloat.
From Stdlib Require Import DecimalString.
Import ListNotations.
Local Open Scope string_scope.
Local Open Scope list_scope.
Set Warnings "-register-all".

(* ================================================================== *)
(** ** Python values and the built-ins the scraper applies to them *)

Module Py.

(** What [json.loads] can return. *)
Inductive value : Type :=
| PNone
| PBool (b : bool)
| PInt (z : Z)
| PFloat (f : float)
| PStr (s : string)
| PList (items : list value)
| PDict (entries : list (string * value)).

(** [bool(v)], as tested by [if not v]. *)
Definition truthy (v : value) : bool :=
  match v with
  | PNone => false
  | PBool b => b
  | PInt z => negb (z =? 0)%Z
  | PFloat f => negb (PrimFloat.eqb f 0%float)
  | PStr s => negb (s =? "")
  | PList items => match items with [] => false | _ => true end
  | PDict entries => match entries with [] => false | _ => true end
  end.

(** Truthiness of an element text ([None] or a [str]). *)
Definition truthy_text (t : option string) : bool :=
  match t with
  | None => false
  | Some s => negb (s =? "")
  end.

(** [f"{t}"] for a value that is [None] or a [str]. *)
Definition format_text (t : option string) : string :=
  match t with
  | None => "None"
  | Some s => s
  end.

Fixpoint assoc (key : string) (entries : list (string * value)) : option value :=
  match entries with
  | [] => None
  | (k, v) :: rest => if k =? key then Some v else assoc key rest
  end.

(** Iterating a value: characters of a [str], items of a [list], keys of
    a [dict]; [None] when the value is not iterable. *)
Definition iterate (v : value) : option (list value) :=
  match v with
  | PStr s => Some (map (fun c => PStr (String c "")) (list_ascii_of_string s))
  | PList items => Some items
  | PDict entries => Some (map (fun kv => PStr (fst kv)) entries)
  | _ => None
  end.

(** The items of a sequence when every one of them is a [str]. *)
Fixpoint all_str (items : list value) : option (list string) :=
  match items with
  | [] => Some []
  | PStr s :: rest =>
      match all_str rest with
      | Some l => Some (s :: l)
      | None => None
      end
  | _ :: _ => None
  end.

(** [str.isspace] on one character. *)
Definition isspace (c : ascii) : bool :=
  let n := nat_of_ascii c in
  (((9 <=? n) && (n <=? 13)) || ((28 <=? n) && (n <=? 32))
   || (n =? 133) || (n =? 160))%nat.

Fixpoint lstrip (s : string) : string :=
  match s with
  | "" => ""
  | String c rest => if isspace c then lstrip rest else s
  end.

Fixpoint rstrip (s : string) : string :=
  match s with
  | "" => ""
  | String c rest =>
      match rstrip rest with
      | "" => if isspace c then "" else String c ""
      | kept => String c kept
      end
  end.

(** An f-string: its literal and formatted pieces, concatenated. *)
Definition fstring (pieces : list string) : string := String.concat "" pieces.

(** [s.strip()]. *)
Definition strip (s : string) : string := rstrip (lstrip s).

End Py.

(* ================================================================== *)
(** ** [xml.etree.ElementTree] *)

Module ET.

(** An element as the scraper sees it: its tag, its [.text] (the
    character data before the first child, [None] when there is none)
    and its children.  Attributes and tails are never read. *)
Inductive Element : Type :=
| Elem (tag : string) (text : option string) (children : list Element).

Definition tag (e : Element) : string :=
  match e with Elem t _ _ => t end.

Definition text (e : Element) : option string :=
  match e with Elem _ t _ => t end.

Definition children (e : Element) : list Element :=
  match e with Elem _ _ cs => cs end.

(** [e.iter()]: the element and everything below it, in document order. *)
Fixpoint iter (e : Element) : list Element :=
  match e with
  | Elem _ _ cs => e :: flat_map iter cs
  end.

Definition descendants (e : Element) : list Element :=
  flat_map iter (children e).

Definition has_tag (t : string) (e : Element) : bool := tag e =? t.

(** The steps of the ElementPath expressions the scraper uses. *)
Inductive step : Type :=
| Descendant (t : string)    (* [.//t] *)
| Child (t : string).        (* [t] at the start, [/t] later on *)

Definition select_step (s : step) (e : Element) : list Element :=
  match s with
  | Descendant t => filter (has_tag t) (descendants e)
  | Child t => filter (has_tag t) (children e)
  end.

Fixpoint select (path : list step) (context : list Element) : list Element :=
  match path with
  | [] => context
  | s :: rest => select rest (flat_map (select_step s) context)
  end.

(** [e.findall(path)] and [e.find(path)]. *)
Definition findall (path : list step) (e : Element) : list Element :=
  select path [e].

Definition find (path : list step) (e : Element) : option Element :=
  head (findall path e).

End ET.

(* ================================================================== *)
(** ** [bs4] *)

Module BS.

(** A parsed page.  [NavigableString] stands for the strings [get_text]
    keeps (plain text and CDATA); [OtherString] for those of any other
    class (comments, declarations, script and style bodies). *)
Inductive PageElement : Type :=
| NavigableString (s : string)
| OtherString (s : string)
| Tag (name : string) (classes : list string) (contents : list PageElement).

Fixpoint self_and_descendants (e : PageElement) : list PageElement :=
  match e with
  | Tag _ _ cs => e :: flat_map self_and_descendants cs
  | _ => [e]
  end.

(** [e.descendants], in document order. *)
Definition descendants (e : PageElement) : list PageElement :=
  match e with
  | Tag _ _ cs => flat_map self_and_descendants cs
  | _ => []
  end.

(** A [class_] filter matches one of the classes or the whole attribute. *)
Definition class_matches (wanted : string) (classes : list string) : bool :=
  existsb (String.eqb wanted) classes
  || match classes with
     | [] => false
     | _ => String.concat " " classes =? wanted
     end.

Definition matches (name : string) (class_ : option string) (e : PageElement) : bool :=
  match e with
  | Tag n classes _ =>
      (n =? name)
      && match class_ with
         | None => true
         | Some wanted => class_matches wanted classes
         end
  | _ => false
  end.

Definition find_all (name : string) (class_ : option string) (e : PageElement)
  : list PageElement :=
  filter (matches name class_) (descendants e).

Definition find (name : string) (class_ : option string) (e : PageElement)
  : option PageElement :=
  head (find_all name class_ e).

Definition navigable (e : PageElement) : list string :=
  match e with
  | NavigableString s => [s]
  | _ => []
  end.

(** The strings [get_text(strip=True)] joins: each kept string of the
    subtree stripped, the ones left empty dropped. *)
Definition stripped_strings (e : PageElement) : list string :=
  filter (fun s => negb (s =? ""))
         (map Py.strip (flat_map navigable (descendants e))).

(** [e.get_text(strip=True)]. *)
Definition get_text_strip (e : PageElement) : string :=
  String.concat "" (stripped_strings e).

End BS.

(* ================================================================== *)
(** ** [config.py] *)

Module Config.

Definition PUBMED_BASE_URL : string := "https://pubmed.ncbi.nlm.nih.gov".
Definition PUBMED_SEARCH_URL : string := "https://eutils.ncbi.nlm.nih.gov/entrez/eutils".
Definition MAX_ARTICLES : Z := 10.

End Config.

(* ================================================================== *)
(** ** Exceptions, events and the monad of the scraper's methods *)

(** The subclasses of [requests.RequestException] the scraper can meet.
    [Response.json()] raises [requests.exceptions.JSONDecodeError], one of
    them, on a body that is not JSON. *)
Inductive request_error : Type :=
| Timeout
| ConnectionError
| TooManyRedirects
| HTTPError
| JSONDecodeError.

(** The exceptions of this program: those its own code raises or
    catches, and those its libraries raise past it. *)
Inductive exn : Type :=
| RequestException (why : request_error)
| ParseError
| AttributeError
| TypeError
| ValueError
| RecursionError
| UnicodeEncodeError
| ParserRejectedMarkup
| OtherError (name : string).

(** [isinstance(e, requests.RequestException)]. *)
Definition is_request_exception (e : exn) : bool :=
  match e with
  | RequestException _ => true
  | _ => false
  end.

Inductive result (A : Type) : Type :=
| Ok (a : A)
| Raise (e : exn).

Arguments Ok {A} a.
Arguments Raise {A} e.

Module Requests.

Record Response : Type := mkResponse {
  status_code : Z;
  text : string
}.

(** How [session.get] ends: with an exception (a [RequestException] such
    as a timeout, or another one, such as the [UnicodeEncodeError] of a
    parameter that cannot be encoded) or with a response. *)
Inductive outcome : Type :=
| Raises (e : exn)
| Responds (r : Response).

End Requests.

Inductive event : Type :=
| Get (url : string) (params : list (string * Py.value)) (timeout : Z)
| Sleep (seconds : float)
| Print (message : string) (e : exn).

(** The log, newest event first. *)
Definition log : Type := list event.

Definition M (A : Type) : Type := log -> result A * log.

Definition ret {A : Type} (a : A) : M A := fun l => (Ok a, l).

Definition raise {A : Type} (e : exn) : M A := fun l => (Raise e, l).

Definition bind {A B : Type} (m : M A) (k : A -> M B) : M B :=
  fun l =>
    match m l with
    | (Ok a, l') => k a l'
    | (Raise e, l') => (Raise e, l')
    end.

Definition emit (ev : event) : M unit := fun l => (Ok tt, ev :: l).

(** A library call that returns or raises and logs nothing. *)
Definition lift {A : Type} (r : result A) : M A := fun l => (r, l).

(** [try: body  except requests.RequestException as e: handler e]. *)
Definition try_except_RequestException {A : Type} (body : M A) (handler : exn -> M A) : M A :=
  fun l =>
    match body l with
    | (Raise (RequestException why), l') => handler (RequestException why) l'
    | other => other
    end.

(** [try: body  except ET.ParseError: handler]. *)
Definition try_except_ParseError {A : Type} (body : M A) (handler : M A) : M A :=
  fun l =>
    match body l with
    | (Raise ParseError, l') => handler l'
    | other => other
    end.

Declare Scope scraper_scope.
Delimit Scope scraper_scope with scraper.

Notation "x <- m ;; k" := (bind m (fun x => k))
  (at level 61, m at next level, right associativity) : scraper_scope.
Notation "m ;;; k" := (bind m (fun _ => k))
  (at level 61, right associativity) : scraper_scope.

Local Open Scope scraper_scope.

Definition print (message : string) (e : exn) : M unit := emit (Print message e).

(** [time.sleep(seconds)]. *)
Definition sleep (seconds : float) : M unit := emit (Sleep seconds).

(** The requests of a log, oldest first. *)
Definition requests_of (l : log) : list string :=
  flat_map (fun ev => match ev with Get url _ _ => [url] | _ => [] end) (rev l).

(* ================================================================== *)
(** ** Records *)

(** The dictionary [_extract_article_data] returns, with the two keys
    [get_research_data] adds; these are [None] while the key is absent. *)
Record article : Type := mkArticle {
  pmid : option string;
  title : option string;
  abstract : string;
  authors : list (option string);
  journal : option string;
  year : option string;
  url : string;
  keywords : option (list string);
  mesh_terms : option (list string)
}.

(** The dictionary [scrape_full_article_page] returns. *)
Record page_extra : Type := mkExtra {
  extra_keywords : list string;
  extra_mesh_terms : list string
}.

(** [article.update(extra)]. *)
Definition update (a : article) (extra : page_extra) : article :=
  {| pmid := pmid a;
     title := title a;
     abstract := abstract a;
     authors := authors a;
     journal := journal a;
     year := year a;
     url := url a;
     keywords := Some (extra_keywords extra);
     mesh_terms := Some (extra_mesh_terms extra) |}.

(** [text if elem is not None else default]. *)
Definition text_or (elem : option ET.Element) (default : string) : option string :=
  match elem with
  | Some e => ET.text e
  | None => Some default
  end.

(** [PubMedScraper._extract_article_data]; [None] is Python's [None]. *)
Definition _extract_article_data (article_elem : ET.Element) : option article :=
  match ET.find [ET.Descendant "MedlineCitation"] article_elem with
  | None => None
  | Some medline =>
      let pmid := text_or (ET.find [ET.Descendant "PMID"] medline) "Unknown" in
      let title :=
        text_or (ET.find [ET.Descendant "ArticleTitle"] medline) "No title available" in
      let abstract_parts := ET.findall [ET.Descendant "AbstractText"] medline in
      let abstract :=
        match abstract_parts with
        | _ :: _ =>
            String.concat " "
              (flat_map (fun part =>
                           match ET.text part with
                           | Some s => if Py.truthy_text (Some s) then [s] else []
                           | None => []
                           end)
                        abstract_parts)
        | [] => "No abstract available."
        end in
      let authors :=
        fold_left
          (fun authors author =>
             let last := ET.find [ET.Child "LastName"] author in
             let first := ET.find [ET.Child "ForeName"] author in
             match last, first with
             | Some last, Some first =>
                 authors ++ [Some (Py.fstring [Py.format_text (ET.text last); ", ";
                                               Py.format_text (ET.text first)])]
             | Some last, None => authors ++ [ET.text last]
             | None, _ => authors
             end)
          (ET.findall [ET.Descendant "Author"] medline) [] in
      let journal :=
        text_or (ET.find [ET.Descendant "Journal"; ET.Child "Title"] medline)
                "Unknown Journal" in
      let year :=
        text_or (ET.find [ET.Descendant "PubDate"; ET.Child "Year"] medline) "N/A" in
      Some {| pmid := pmid;
              title := title;
              abstract := abstract;
              authors := firstn 5 authors;
              journal := journal;
              year := year;
              url := Py.fstring ["https://pubmed.ncbi.nlm.nih.gov/"; Py.format_text pmid; "/"];
              keywords := None;
              mesh_terms := None |}
  end.

(* ================================================================== *)
(** ** [PubMedScraper] *)

(** The object state the methods read: [self.base_url] and, for
    [self.session], how the servers answer. *)
Record PubMedScraper : Type := mkScraper {
  base_url : string;
  session : log -> Requests.outcome
}.

(** [PubMedScraper.__init__]. *)
Definition __init__ (servers : log -> Requests.outcome) : PubMedScraper :=
  {| base_url := Config.PUBMED_SEARCH_URL; session := servers |}.

(** [self.session.get(url, params=params, timeout=timeout)]. *)
Definition session_get (self : PubMedScraper) (url : string)
    (params : list (string * Py.value)) (timeout : Z) : M Requests.Response :=
  fun l =>
    let l' := Get url params timeout :: l in
    match session self l' with
    | Requests.Raises e => (Raise e, l')
    | Requests.Responds r => (Ok r, l')
    end.

(** [response.raise_for_status()]. *)
Definition raise_for_status (response : Requests.Response) : M unit :=
  if ((400 <=? Requests.status_code response) && (Requests.status_code response <? 600))%Z
  then raise (RequestException HTTPError)
  else ret tt.

(** [d.get(key, default)]; only a [dict] has the method. *)
Definition dict_get (d : Py.value) (key : string) (default : Py.value) : M Py.value :=
  match d with
  | Py.PDict entries =>
      ret match Py.assoc key entries with
          | Some v => v
          | None => default
          end
  | _ => raise AttributeError
  end.

(** [sep.join(v)]. *)
Definition str_join (sep : string) (v : Py.value) : M string :=
  match Py.iterate v with
  | None => raise TypeError
  | Some items =>
      match Py.all_str items with
      | None => raise TypeError
      | Some strs => ret (String.concat sep strs)
      end
  end.

Section Scraper.

(** [response.json()] on a body: the decoded value, or what it raises. *)
Variable json_loads : string -> result Py.value.

(** [ET.fromstring]: the root element, or what it raises. *)
Variable fromstring : string -> result ET.Element.

(** [BeautifulSoup(markup, "html.parser")]: the document object, or what
    it raises. *)
Variable BeautifulSoup : string -> result BS.PageElement.

Definition response_json (response : Requests.Response) : M Py.value :=
  lift (json_loads (Requests.text response)).

Definition ET_fromstring (xml_text : string) : M ET.Element :=
  lift (fromstring xml_text).

(** [PubMedScraper.search_articles]. *)
Definition search_articles (self : PubMedScraper) (query : string)
    (max_results : option Z) : M Py.value :=
  let max_results :=
    match max_results with
    | None => Config.MAX_ARTICLES
    | Some n => n
    end in
  let params :=
    [("db", Py.PStr "pubmed");
     ("term", Py.PStr (Py.fstring [query; " AND rehabilitation"]));
     ("retmax", Py.PInt max_results);
     ("retmode", Py.PStr "json");
     ("sort", Py.PStr "relevance")] in
  try_except_RequestException
    (response <- session_get self (Py.fstring [base_url self; "/esearch.fcgi"]) params 15 ;;
     raise_for_status response ;;;
     data <- response_json response ;;
     esearchresult <- dict_get data "esearchresult" (Py.PDict []) ;;
     dict_get esearchresult "idlist" (Py.PList []))
    (fun e =>
       print "Error searching PubMed: " e ;;;
       ret (Py.PList [])).

(** [PubMedScraper._parse_xml_response]. *)
Definition _parse_xml_response (xml_text : string) : M (list article) :=
  let articles := [] in
  try_except_ParseError
    (root <- ET_fromstring xml_text ;;
     ret (fold_left
            (fun articles article_elem =>
               match _extract_article_data article_elem with
               | Some article => articles ++ [article]
               | None => articles
               end)
            (ET.findall [ET.Descendant "PubmedArticle"] root)
            articles))
    (ret articles).

(** [PubMedScraper.fetch_article_details]. *)
Definition fetch_article_details (self : PubMedScraper) (article_ids : Py.value)
    : M (list article) :=
  if negb (Py.truthy article_ids) then ret []
  else
    ids_str <- str_join "," article_ids ;;
    let params :=
      [("db", Py.PStr "pubmed");
       ("id", Py.PStr ids_str);
       ("retmode", Py.PStr "xml")] in
    try_except_RequestException
      (response <- session_get self (Py.fstring [base_url self; "/efetch.fcgi"]) params 15 ;;
       raise_for_status response ;;;
       _parse_xml_response (Requests.text response))
      (fun e =>
         print "Error fetching article details: " e ;;;
         ret []).

(** The loop [for b in buttons: text = b.get_text(strip=True); if text:
    out.append(text)]. *)
Definition collect_texts (buttons : list BS.PageElement) : list string :=
  fold_left
    (fun out b =>
       let text := BS.get_text_strip b in
       if negb (text =? "") then out ++ [text] else out)
    buttons [].

(** [PubMedScraper.scrape_full_article_page]; [pmid] is the [pmid] of a
    record, [None] or a [str]. *)
Definition scrape_full_article_page (self : PubMedScraper) (pmid : option string)
    : M page_extra :=
  let url := Py.fstring [Config.PUBMED_BASE_URL; "/"; Py.format_text pmid; "/"] in
  try_except_RequestException
    (response <- session_get self url [] 15 ;;
     raise_for_status response ;;;
     soup <- lift (BeautifulSoup (Requests.text response)) ;;
     let keywords :=
       match BS.find "div" (Some "keywords-section") soup with
       | Some keyword_section =>
           collect_texts (BS.find_all "button" (Some "keyword-actions-trigger") keyword_section)
       | None => []
       end in
     let mesh_terms :=
       match BS.find "div" (Some "mesh-terms") soup with
       | Some mesh_section => collect_texts (BS.find_all "button" None mesh_section)
       | None => []
       end in
     ret {| extra_keywords := keywords; extra_mesh_terms := mesh_terms |})
    (fun e =>
       print (Py.fstring ["Error scraping article page "; Py.format_text pmid; ": "]) e ;;;
       ret {| extra_keywords := []; extra_mesh_terms := [] |}).

(** The loop of [get_research_data] over the fetched records.  Each
    record is a dictionary of its own, so updating it in place is
    rebuilding the list with the updated record. *)
Fixpoint enrich (self : PubMedScraper) (articles : list article) : M (list article) :=
  match articles with
  | [] => ret []
  | article :: rest =>
      extra <- scrape_full_article_page self (pmid article) ;;
      let article := update article extra in
      sleep 0.5 ;;;
      rest <- enrich self rest ;;
      ret (article :: rest)
  end.

(** [PubMedScraper.get_research_data]. *)
Definition get_research_data (self : PubMedScraper) (query : string)
    (max_results : option Z) : M (list article) :=
  article_ids <- search_articles self query max_results ;;
  if negb (Py.truthy article_ids) then ret []
  else
    articles <- fetch_article_details self article_ids ;;
    enrich self articles.

End Scraper.

(* ================================================================== *)
(** ** The notions the theorems are stated with *)

(** What the loop of [_extract_article_data] over the [Author] elements
    appends for one of them. *)
Definition appended_for (author : ET.Element) : list (option string) :=
  match ET.find [ET.Child "LastName"] author, ET.find [ET.Child "ForeName"] author with
  | Some last, Some first =>
      [Some (Py.fstring [Py.format_text (ET.text last); ", ";
                         Py.format_text (ET.text first)])]
  | Some last, None => [ET.text last]
  | None, _ => []
  end.

(** The text of the first child of an element with a given tag, when
    there is such a child and it has text. *)
Definition child_text (t : string) (e : ET.Element) : option string :=
  match ET.find [ET.Child t] e with
  | Some child => ET.text child
  | None => None
  end.

(** The name of an author as the specification writes it: "LastName,
    ForeName", or just the last name when the forename is absent.  An
    author without a last name has none. *)
Definition author_name (author : ET.Element) : option string :=
  match child_text "LastName" author with
  | Some last =>
      Some match child_text "ForeName" author with
           | Some first => (last ++ ", " ++ first)%string
           | None => last
           end
  | None => None
  end.

(** The names of the authors of a citation that have one, in document
    order. *)
Definition author_names (medline : ET.Element) : list string :=
  flat_map (fun author => match author_name author with
                          | Some name => [name]
                          | None => []
                          end)
           (ET.findall [ET.Descendant "Author"] medline).

(** The article entries of a document and their citation. *)
Definition article_entries (root : ET.Element) : list ET.Element :=
  ET.findall [ET.Descendant "PubmedArticle"] root.

Definition has_citation (entry : ET.Element) : bool :=
  existsb (ET.has_tag "MedlineCitation") (ET.descendants entry).

Definition has_citation_child (entry : ET.Element) : bool :=
  existsb (ET.has_tag "MedlineCitation") (ET.children entry).

(** A string free of surrounding whitespace. *)
Definition trimmed (s : string) : Prop := Py.strip s = s.

(** A string that does not start with whitespace. *)
Definition clean_start (s : string) : bool :=
  match s with
  | "" => true
  | String c _ => negb (Py.isspace c)
  end.

(** A stripped string that is not empty. *)
Definition piece (s : string) : Prop :=
  s <> "" /\ clean_start s = true /\ Py.rstrip s = s.

(** The visible text of the buttons that are children of a region,
    trimmed, the empty ones skipped. *)
Definition child_button_texts (region : BS.PageElement) : list string :=
  match region with
  | BS.Tag _ _ contents =>
      filter (fun s => negb (s =? ""))
             (map BS.get_text_strip (filter (BS.matches "button" None) contents))
  | _ => []
  end.

(** The same over the buttons anywhere inside the region that pass the
    class filter. *)
Definition button_texts (class_ : option string) (region : BS.PageElement) : list string :=
  filter (fun s => negb (s =? ""))
         (map BS.get_text_strip (BS.find_all "button" class_ region)).

(** The two fields read off a parsed page. *)
Definition fields_of (soup : BS.PageElement) : page_extra :=
  {| extra_keywords :=
       match BS.find "div" (Some "keywords-section") soup with
       | Some region => button_texts (Some "keyword-actions-trigger") region
       | None => []
       end;
     extra_mesh_terms :=
       match BS.find "div" (Some "mesh-terms") soup with
       | Some region => button_texts None region
       | None => []
       end |}.

(** The fields of a page that could not be had. *)
Definition no_fields : page_extra := {| extra_keywords := []; extra_mesh_terms := [] |}.

(** A transport failure: a [RequestException] instead of a response, or
    a status [raise_for_status] rejects. *)
Definition transport_failure (o : Requests.outcome) : bool :=
  match o with
  | Requests.Raises e => is_request_exception e
  | Requests.Responds r =>
      ((400 <=? Requests.status_code r) && (Requests.status_code r <? 600))%Z
  end.



(** What the two [get] calls of [search_articles] make of a decoded body. *)
Definition idlist_of (data : Py.value) : result Py.value :=
  match data with
  | Py.PDict entries =>
      match match Py.assoc "esearchresult" entries with
            | Some v => v
            | None => Py.PDict []
            end with
      | Py.PDict result_entries =>
          Ok match Py.assoc "idlist" result_entries with
             | Some v => v
             | None => Py.PList []
             end
      | _ => Raise AttributeError
      end
  | _ => Raise AttributeError
  end.

(** The events of the three requests. *)
Definition search_request (self : PubMedScraper) (query : string) (max_results : option Z)
    : event :=
  Get (Py.fstring [base_url self; "/esearch.fcgi"])
      [("db", Py.PStr "pubmed");
       ("term", Py.PStr (Py.fstring [query; " AND rehabilitation"]));
       ("retmax", Py.PInt match max_results with
                          | None => Config.MAX_ARTICLES
                          | Some n => n
                          end);
       ("retmode", Py.PStr "json");
       ("sort", Py.PStr "relevance")]
      15.

Definition fetch_request (self : PubMedScraper) (ids_str : string) : event :=
  Get (Py.fstring [base_url self; "/efetch.fcgi"])
      [("db", Py.PStr "pubmed"); ("id", Py.PStr ids_str); ("retmode", Py.PStr "xml")]
      15.

Definition page_request (pmid : option string) : event :=
  Get (Py.fstring [Config.PUBMED_BASE_URL; "/"; Py.format_text pmid; "/"]) [] 15.

(** Libraries that raise nothing the scraper does not catch on what the
    servers of a scraper send.  [session.get] raises [RequestException]s
    only; so does [response.json()] on the bodies that answer a search
    with a status [raise_for_status] accepts; [ET.fromstring] raises
    [ParseError] only on those that answer a batch fetch; the page parser
    raises nothing on the pages. *)
Definition tame_session (self : PubMedScraper) : Prop :=
  forall l e, session self l = Requests.Raises e -> is_request_exception e = true.


Definition tame_xml (fromstring : string -> result ET.Element) (self : PubMedScraper) : Prop :=
  forall ids_str l r e,
    session self (fetch_request self ids_str :: l) = Requests.Responds r ->
    transport_failure (Requests.Responds r) = false ->
    fromstring (Requests.text r) = Raise e ->
    e = ParseError.

Definition tame_soup (BeautifulSoup : string -> result BS.PageElement) (self : PubMedScraper)
    : Prop :=
  forall pmid l r e,
    session self (page_request pmid :: l) = Requests.Responds r ->
    transport_failure (Requests.Responds r) = false ->
    BeautifulSoup (Requests.text r) <> Raise e.

(** The bound a call asks for. *)
Definition requested (max_results : option Z) : Z :=
  match max_results with
  | None => Config.MAX_ARTICLES
  | Some n => n
  end.

(** A fetched record [a] and what the pipeline returns for it: the same
    record with the two fields an extractor run gave, which are empty when
    that run met a transport failure. *)
Definition enriched (BeautifulSoup : string -> result BS.PageElement) (self : PubMedScraper)
    (a a' : article) : Prop :=
  exists extra li,
    fst (scrape_full_article_page BeautifulSoup self (pmid a) li) = Ok extra
    /\ a' = update a extra
    /\ (transport_failure (session self (page_request (pmid a) :: li)) = true ->
        extra = {| extra_keywords := []; extra_mesh_terms := [] |}).


(* ================================================================== *)
(** ** Sample documents

    The documents the examples run on, each with the tree its parser
    builds for it.  [sample_json_loads], [sample_fromstring] and
    [sample_BeautifulSoup] stand for the three library parsers in the
    examples: they agree with them on these documents, the only ones the
    examples feed them.  [strict_json_loads], [strict_fromstring] and
    [strict_BeautifulSoup] do the same on one more document each, on
    which the library raises an exception of its own. *)

Definition dquote : string := String "034"%char EmptyString.

Definition quoted (s : string) : string := Py.fstring [dquote; s; dquote].

Definition leaf (tag text : string) : ET.Element := ET.Elem tag (Some text) [].

Definition node (tag : string) (children : list ET.Element) : ET.Element :=
  ET.Elem tag None children.

(** [{"esearchresult": {"idlist": ["12345678"]}}] *)
Definition SEARCH_ONE : string :=
  Py.fstring ["{"; quoted "esearchresult"; ": {"; quoted "idlist"; ": [";
              quoted "12345678"; "]}}"].

Definition SEARCH_ONE_data : Py.value :=
  Py.PDict [("esearchresult", Py.PDict [("idlist", Py.PList [Py.PStr "12345678"])])].

(** [{"esearchresult": {"idlist": []}}] *)
Definition SEARCH_NONE : string :=
  Py.fstring ["{"; quoted "esearchresult"; ": {"; quoted "idlist"; ": []}}"].

Definition SEARCH_NONE_data : Py.value :=
  Py.PDict [("esearchresult", Py.PDict [("idlist", Py.PList [])])].

(** A body that is JSON but not an object. *)
Definition SEARCH_ARRAY : string := "[]".

Definition sample_json_loads (body : string) : result Py.value :=
  if body =? SEARCH_ONE then Ok SEARCH_ONE_data
  else if body =? SEARCH_NONE then Ok SEARCH_NONE_data
  else if body =? SEARCH_ARRAY then Ok (Py.PList [])
  else Raise (RequestException JSONDecodeError).



Definition author (last first : string) : ET.Element :=
  node "Author" [leaf "LastName" last; leaf "ForeName" first].

Definition smith_entry : ET.Element :=
  node "PubmedArticle"
    [node "MedlineCitation"
       [leaf "PMID" "12345678";
        node "Article"
          [leaf "ArticleTitle" "Effects of Physical Therapy on Stroke Recovery";
           node "Abstract"
             [leaf "AbstractText" "Early therapy helps.";
              leaf "AbstractText" "Gains persist at one year."];
           node "AuthorList" [author "Smith" "John"; author "Doe" "Jane"];
           node "Journal" [leaf "Title" "Journal of Rehabilitation Medicine"]]]].

Definition lee_entry : ET.Element :=
  node "PubmedArticle"
    [node "MedlineCitation" [leaf "PMID" "87654321"]].

(** An entry whose citation sits one level down. *)
Definition wrapped_entry : ET.Element :=
  node "PubmedArticle"
    [node "Wrapper" [node "MedlineCitation" [leaf "PMID" "11223344"]]].

(** An entry without any citation. *)
Definition bare_entry : ET.Element :=
  node "PubmedArticle" [node "PubmedData" []].

(** An entry whose elements are there but carry no text. *)
Definition textless_entry : ET.Element :=
  node "PubmedArticle"
    [node "MedlineCitation"
       [node "PMID" [];
        node "Article"
          [node "ArticleTitle" [leaf "i" "In vitro"];
           node "AuthorList" [node "Author" [node "LastName" []]];
           node "Journal" [node "Title" []];
           node "PubDate" [node "Year" []]]]].

(** An entry with seven authors, the third a collective one. *)
Definition crowded_entry : ET.Element :=
  node "PubmedArticle"
    [node "MedlineCitation"
       [leaf "PMID" "55555555";
        node "AuthorList"
          [author "Adams" "Ann"; node "Author" [leaf "LastName" "Brown"];
           node "Author" [leaf "CollectiveName" "Stroke Trial Group"];
           author "Clark" "Cy"; author "Diaz" "Dee"; author "Evans" "Eli";
           author "Ford" "Fay"]]].

(** [<PubmedArticleSet>] with the entry of Smith *)
Definition XML_ONE : string :=
  "<PubmedArticleSet><PubmedArticle><MedlineCitation><PMID>12345678</PMID><Article><ArticleTitle>Effects of Physical Therapy on Stroke Recovery</ArticleTitle><Abstract><AbstractText>Early therapy helps.</AbstractText><AbstractText>Gains persist at one year.</AbstractText></Abstract><AuthorList><Author><LastName>Smith</LastName><ForeName>John</ForeName></Author><Author><LastName>Doe</LastName><ForeName>Jane</ForeName></Author></AuthorList><Journal><Title>Journal of Rehabilitation Medicine</Title></Journal></Article></MedlineCitation></PubmedArticle></PubmedArticleSet>".

(** Two entries, each with a citation. *)
Definition XML_TWO : string :=
  "<PubmedArticleSet><PubmedArticle><MedlineCitation><PMID>12345678</PMID></MedlineCitation></PubmedArticle><PubmedArticle><MedlineCitation><PMID>87654321</PMID></MedlineCitation></PubmedArticle></PubmedArticleSet>".

(** Three entries: a citation one level down, none, and a plain one. *)
Definition XML_MIXED : string :=
  "<PubmedArticleSet><PubmedArticle><Wrapper><MedlineCitation><PMID>11223344</PMID></MedlineCitation></Wrapper></PubmedArticle><PubmedArticle><PubmedData/></PubmedArticle><PubmedArticle><MedlineCitation><PMID>87654321</PMID></MedlineCitation></PubmedArticle></PubmedArticleSet>".

(** One entry whose elements are there but carry no text. *)
Definition XML_TEXTLESS : string :=
  "<PubmedArticleSet><PubmedArticle><MedlineCitation><PMID/><Article><ArticleTitle><i>In vitro</i></ArticleTitle><AuthorList><Author><LastName/></Author></AuthorList><Journal><Title/></Journal><PubDate><Year/></PubDate></Article></MedlineCitation></PubmedArticle></PubmedArticleSet>".

(** The malformed document of the test suite. *)
Definition XML_BROKEN : string := "<broken>xml<".

(** An entry whose abstract opens with markup: its [AbstractText] has no
    text before the first child. *)
Definition italic_entry : ET.Element :=
  node "PubmedArticle"
    [node "MedlineCitation"
       [leaf "PMID" "22222222";
        node "Article"
          [node "Abstract"
             [node "AbstractText" [leaf "i" "Staphylococcus aureus"]]]]].

Definition XML_ITALIC : string :=
  "<PubmedArticleSet><PubmedArticle><MedlineCitation><PMID>22222222</PMID><Article><Abstract><AbstractText><i>Staphylococcus aureus</i> is common.</AbstractText></Abstract></Article></MedlineCitation></PubmedArticle></PubmedArticleSet>".

Definition sample_fromstring (xml_text : string) : result ET.Element :=
  if xml_text =? XML_ONE then Ok (node "PubmedArticleSet" [smith_entry])
  else if xml_text =? XML_TWO then
    Ok (node "PubmedArticleSet"
          [node "PubmedArticle" [node "MedlineCitation" [leaf "PMID" "12345678"]];
           lee_entry])
  else if xml_text =? XML_MIXED then
    Ok (node "PubmedArticleSet" [wrapped_entry; bare_entry; lee_entry])
  else if xml_text =? XML_TEXTLESS then Ok (node "PubmedArticleSet" [textless_entry])
  else if xml_text =? XML_ITALIC then Ok (node "PubmedArticleSet" [italic_entry])
  else Raise ParseError.

(** The text ['<a>\ud800</a>'], its lone surrogate U+D800 written in
    three bytes. *)
Definition XML_SURROGATE : string :=
  Py.fstring ["<a>"; String "237"%char (String "160"%char (String "128"%char EmptyString));
              "</a>"].

(** [sample_fromstring] with the [UnicodeEncodeError] of that text. *)
Definition strict_fromstring (xml_text : string) : result ET.Element :=
  if xml_text =? XML_SURROGATE then Raise UnicodeEncodeError
  else sample_fromstring xml_text.

(** A page whose buttons sit inside a list, as the detail pages have
    them; the keywords region also holds a button of another kind. *)
Definition PAGE : string :=
  Py.fstring
    ["<div class="; quoted "keywords-section"; "><ul><li><button class=";
     quoted "keyword-actions-trigger"; "> stroke </button></li><li><button class=";
     quoted "keyword-actions-trigger"; ">rehabilitation</button></li></ul>";
     "<button>Show all</button></div>";
     "<div class="; quoted "mesh-terms"; "><ul><li><button>Physical <b>Therapy</b>";
     "</button></li><li><button> </button></li></ul></div>"].

Definition PAGE_soup : BS.PageElement :=
  BS.Tag "[document]" []
    [BS.Tag "div" ["keywords-section"]
       [BS.Tag "ul" []
          [BS.Tag "li" []
             [BS.Tag "button" ["keyword-actions-trigger"] [BS.NavigableString " stroke "]];
           BS.Tag "li" []
             [BS.Tag "button" ["keyword-actions-trigger"]
                [BS.NavigableString "rehabilitation"]]];
        BS.Tag "button" [] [BS.NavigableString "Show all"]];
     BS.Tag "div" ["mesh-terms"]
       [BS.Tag "ul" []
          [BS.Tag "li" []
             [BS.Tag "button" []
                [BS.NavigableString "Physical ";
                 BS.Tag "b" [] [BS.NavigableString "Therapy"]]];
           BS.Tag "li" [] [BS.Tag "button" [] [BS.NavigableString " "]]]]].

(** A page without either region. *)
Definition PAGE_PLAIN : string := "<p>No tags here</p>".

Definition sample_BeautifulSoup (markup : string) : result BS.PageElement :=
  if markup =? PAGE then Ok PAGE_soup
  else Ok (BS.Tag "[document]" [] [BS.Tag "p" [] [BS.NavigableString "No tags here"]]).



(** Servers that answer every search with [search], every batch fetch
    with [fetched] and every page request with [page]. *)
Definition servers (search fetched page : Requests.outcome) : log -> Requests.outcome :=
  fun l =>
    match l with
    | Get url _ _ :: _ =>
        if url =? "https://eutils.ncbi.nlm.nih.gov/entrez/eutils/esearch.fcgi" then search
        else if url =? "https://eutils.ncbi.nlm.nih.gov/entrez/eutils/efetch.fcgi" then fetched
        else page
    | _ => Requests.Raises (RequestException ConnectionError)
    end.

Definition ok (body : string) : Requests.outcome :=
  Requests.Responds {| Requests.status_code := 200; Requests.text := body |}.

(** A scraper talking to such servers. *)
Definition scraper_with (search fetched page : Requests.outcome) : PubMedScraper :=
  __init__ (servers search fetched page).

(** The scrapers of the examples: one identifier, one entry and the page;
    the same with the pages timing out; a search that finds nothing; a
    search body that is an array; a search answered with status 300; two
    entries sent for one identifier. *)
Definition stroke_scraper : PubMedScraper :=
  scraper_with (ok SEARCH_ONE) (ok XML_ONE) (ok PAGE).


Definition fruitless_scraper : PubMedScraper :=
  scraper_with (ok SEARCH_NONE) (ok XML_ONE) (ok PAGE).



Definition generous_scraper : PubMedScraper :=
  scraper_with (ok SEARCH_ONE) (ok XML_TWO) (ok PAGE).




(* ================================================================== *)
(** ** The callers: [app.py] and [analyzer.py] *)

Module Flask.

(** [request.form]: the fields of the posted form, [get] answering with
    the first value of a key. *)
Definition form : Type := list (string * string).

Fixpoint form_get (fields : form) (key : string) : option string :=
  match fields with
  | [] => None
  | (k, v) :: rest => if k =? key then Some v else form_get rest key
  end.

(** What a route hands to [jsonify]. *)
Inductive body : Type :=
| ErrorBody (error : string)
| ArticlesBody (articles : list article) (count : nat).

(** A JSON body and its status. *)
Record response : Type := mkReply {
  json : body;
  status : Z
}.

End Flask.

Section App.

Variable json_loads : string -> result Py.value.
Variable fromstring : string -> result ET.Element.
Variable BeautifulSoup : string -> result BS.PageElement.

(** [int(value)] on a form value: [None] when it raises [ValueError]. *)
Variable py_int : string -> option Z.

(** [request.form.get("max_results", Config.MAX_ARTICLES, type=int)]: the
    default when the field is missing or is not an integer. *)
Definition form_max_results (fields : Flask.form) : Z :=
  match Flask.form_get fields "max_results" with
  | None => Config.MAX_ARTICLES
  | Some value =>
      match py_int value with
      | Some n => n
      | None => Config.MAX_ARTICLES
      end
  end.

(** The route [search] of [create_app], on the scraper the application
    holds and the posted form. *)
Definition search (scraper : PubMedScraper) (fields : Flask.form) : M Flask.response :=
  let query :=
    Py.strip match Flask.form_get fields "query" with
             | Some value => value
             | None => ""
             end in
  if negb (Py.truthy (Py.PStr query))
  then ret {| Flask.json := Flask.ErrorBody "Please enter a search query.";
              Flask.status := 400 |}
  else
    let max_results := form_max_results fields in
    let max_results := Z.min (Z.max 1 max_results) 20 in
    articles <- get_research_data json_loads fromstring BeautifulSoup
                  scraper query (Some max_results) ;;
    match articles with
    | [] =>
        ret {| Flask.json :=
                 Flask.ErrorBody "No articles found. Try a different search term.";
               Flask.status := 404 |}
    | _ :: _ =>
        ret {| Flask.json := Flask.ArticlesBody articles (List.length articles);
               Flask.status := 200 |}
    end.

End App.

Definition newline : string := String "010"%char EmptyString.

(** [sep.join(items)] on a list whose items are [None] or a [str]. *)
Fixpoint texts_of (items : list (option string)) : option (list string) :=
  match items with
  | [] => Some []
  | Some s :: rest =>
      match texts_of rest with
      | Some l => Some (s :: l)
      | None => None
      end
  | None :: _ => None
  end.

Definition join_texts (sep : string) (items : list (option string)) : result string :=
  match texts_of items with
  | Some strs => Ok (String.concat sep strs)
  | None => Raise TypeError
  end.

(** The loop of [_build_research_context] from index [i] on. *)
Fixpoint context_parts_from (i : nat) (articles : list article)
    (context_parts : list string) : result (list string) :=
  match articles with
  | [] => Ok context_parts
  | article :: rest =>
      match join_texts "; " (authors article) with
      | Raise e => Raise e
      | Ok authors_str =>
          let keywords_str :=
            String.concat ", " match keywords article with
                               | Some kws => kws
                               | None => []
                               end in
          context_parts_from (S i) rest
            (context_parts
             ++ [Py.fstring
                   ["--- Article "; NilZero.string_of_uint (Nat.to_uint i); " ---"; newline;
                    "Title: "; Py.format_text (title article); newline;
                    "Authors: "; authors_str; newline;
                    "Journal: "; Py.format_text (journal article);
                    " ("; Py.format_text (year article); ")"; newline;
                    "Abstract: "; abstract article; newline;
                    "Keywords: "; keywords_str; newline;
                    "URL: "; url article; newline]])
      end
  end.

(** [RehabAnalyzer._build_research_context] on records of the scraper. *)
Definition _build_research_context (articles : list article) : result string :=
  match context_parts_from 1 articles [] with
  | Ok context_parts => Ok (String.concat newline context_parts)
  | Raise e => Raise e
  end.

(** The events of a log that are not prints, oldest first. *)
Definition traffic (l : log) : list event :=
  filter (fun ev => match ev with Print _ _ => false | _ => true end) (rev l).

(** What a run does for a record: it asks for the page at the record's
    own [url], then sleeps half a second. *)
Definition page_visit (a : article) : list event :=
  [Get (url a) [] 15; Sleep 0.5].

(** The [retmax] a request carries, if it is a request that has one. *)
Definition retmax_of (ev : event) : option Py.value :=
  match ev with
  | Get _ params _ => Py.assoc "retmax" params
  | _ => None
  end.

(** The strings [",".join(v)] joins, when [v] is iterable and yields
    strings only. *)
Definition id_strings (v : Py.value) : option (list string) :=
  match Py.iterate v with
  | Some items => Py.all_str items
  | None => None
  end.

(** Every author entry of every record is a string. *)
Definition authors_are_strings (articles : list article) : bool :=
  forallb (fun a => forallb (fun entry => match entry with
                                          | Some _ => true
                                          | None => false
                                          end) (authors a)) articles.

(** The query a posted form stands for: the field stripped, the empty
    string when the field is missing. *)
Definition posted_query (fields : Flask.form) : string :=
  Py.strip match Flask.form_get fields "query" with
           | Some value => value
           | None => ""
           end.

(** The elements whose text the record takes as it is. *)
Definition text_taken (e : ET.Element) : bool :=
  existsb (String.eqb (ET.tag e)) ["PMID"; "ArticleTitle"; "Title"; "Year"; "LastName"].

(** [{"esearchresult": {"idlist": [1]}}] and [{"esearchresult": {}}]:
    identifiers that are numbers, and no identifier list at all. *)
Definition SEARCH_NUMBERS : string :=
  Py.fstring ["{"; quoted "esearchresult"; ": {"; quoted "idlist"; ": [1]}}"].

Definition SEARCH_BARE : string :=
  Py.fstring ["{"; quoted "esearchresult"; ": {}}"].

(** [sample_json_loads] and the two bodies above. *)
Definition more_json_loads (body : string) : result Py.value :=
  if body =? SEARCH_NUMBERS
  then Ok (Py.PDict [("esearchresult", Py.PDict [("idlist", Py.PList [Py.PInt 1])])])
  else if body =? SEARCH_BARE then Ok (Py.PDict [("esearchresult", Py.PDict [])])
  else sample_json_loads body.


Definition bare_scraper : PubMedScraper :=
  scraper_with (ok SEARCH_BARE) (ok XML_ONE) (ok PAGE).

(** Form values the examples post, with their integers. *)
Definition sample_int (value : string) : option Z :=
  if value =? "5" then Some 5%Z
  else if value =? "500" then Some 500%Z
  else if value =? "-3" then Some (-3)%Z
  else None.

(* ================================================================== *)
(** ** Lists and strings *)

Section ListFacts.

Context {A B : Type}.

(** A loop that only appends builds the concatenation of what it appends. *)
Lemma fold_left_appends (step : list B -> A -> list B) (g : A -> list B) :
  (forall acc x, step acc x = acc ++ g x) ->
  forall l init, fold_left step l init = init ++ flat_map g l.
Proof.
  intros Hstep l.
  induction l as [|x l IH]; intros init; simpl.
  - now rewrite app_nil_r.
  - rewrite IH, Hstep, <- app_assoc. reflexivity.
Qed.

Lemma head_filter_none (f : A -> bool) (l : list A) :
  head (filter f l) = None <-> existsb f l = false.
Proof.
  induction l as [|x l IH]; simpl.
  - tauto.
  - destruct (f x); simpl; [split; discriminate | exact IH].
Qed.

Lemma flat_map_optional_length (f : A -> option B) (l : list A) :
  List.length (flat_map (fun x => match f x with Some y => [y] | None => [] end) l)
  = List.length (filter (fun x => match f x with Some _ => true | None => false end) l).
Proof.
  induction l as [|x l IH]; simpl; [reflexivity|].
  destruct (f x); simpl; now rewrite ?IH.
Qed.

Lemma flat_map_nothing (f : A -> list B) (l : list A) :
  Forall (fun x => f x = []) l -> flat_map f l = [].
Proof.
  induction 1 as [|x l Hx _ IH]; [reflexivity|].
  cbn [flat_map]. now rewrite Hx, IH.
Qed.

End ListFacts.

Lemma findall_descendant (t : string) (e : ET.Element) :
  ET.findall [ET.Descendant t] e = filter (ET.has_tag t) (ET.descendants e).
Proof.
  unfold ET.findall. simpl. apply app_nil_r.
Qed.

Lemma extract_none_iff (entry : ET.Element) :
  _extract_article_data entry = None <-> has_citation entry = false.
Proof.
  unfold _extract_article_data, has_citation, ET.find.
  rewrite findall_descendant.
  destruct (head (filter (ET.has_tag "MedlineCitation") (ET.descendants entry)))
    as [medline|] eqn:Hfind.
  - split; [discriminate|].
    intros H. apply head_filter_none in H. congruence.
  - split; [|reflexivity].
    intros _. now apply head_filter_none.
Qed.

Lemma some_eq {A : Type} (x y : A) : Some x = Some y -> x = y.
Proof. congruence. Qed.

(* ================================================================== *)
(** ** The XML record parser *)

(** What [_parse_xml_response] returns on a text [ET.fromstring] rejects
    with [ParseError]. *)
Lemma parse_xml_response_rejected
    (fromstring : string -> result ET.Element) (xml_text : string) (l : log) :
  fromstring xml_text = Raise ParseError ->
  _parse_xml_response fromstring xml_text l = (Ok [], l).
Proof.
  intros Hbad.
  unfold _parse_xml_response, try_except_ParseError, bind, ET_fromstring, lift.
  now rewrite Hbad.
Qed.

(** Any other exception of [ET.fromstring] leaves the parser. *)
Lemma parse_xml_response_raises
    (fromstring : string -> result ET.Element) (xml_text : string) (l : log) (e : exn) :
  fromstring xml_text = Raise e ->
  e <> ParseError ->
  _parse_xml_response fromstring xml_text l = (Raise e, l).
Proof.
  intros Hbad Hother.
  unfold _parse_xml_response, try_except_ParseError, bind, ET_fromstring, lift.
  rewrite Hbad. destruct e; try reflexivity. congruence.
Qed.

(** C5, as written, fails: the text ['<a>\ud800</a>'] cannot be parsed,
    [ET.fromstring] raises [UnicodeEncodeError] on it, and that exception
    leaves [_parse_xml_response]. *)
Lemma surrogate_text_counterexample :
  strict_fromstring XML_SURROGATE = Raise UnicodeEncodeError
  /\ _parse_xml_response strict_fromstring XML_SURROGATE []
     = (Raise UnicodeEncodeError, []).
Proof.
  split; reflexivity.
Qed.

(** C5, amended.  On a text that [ET.fromstring] does not parse,
    [_parse_xml_response] returns the empty list, raising nothing and
    doing nothing else, when the parser raised [ParseError]; any other
    exception of the parser leaves it as it is. *)
Theorem unparseable_xml_yields_no_records
    (fromstring : string -> result ET.Element) (xml_text : string) (l : log) (e : exn) :
  fromstring xml_text = Raise e ->
  (e = ParseError -> _parse_xml_response fromstring xml_text l = (Ok [], l))
  /\ (e <> ParseError -> _parse_xml_response fromstring xml_text l = (Raise e, l)).
Proof.
  intros Hrejected.
  unfold _parse_xml_response, try_except_ParseError.
  unfold bind, ET_fromstring, lift.
  rewrite Hrejected.
  split.
  - intros ->. reflexivity.
  - intros Hother. destruct e; try reflexivity. congruence.
Qed.

Lemma unparseable_xml_witness :
  sample_fromstring XML_BROKEN = Raise ParseError
  /\ _parse_xml_response sample_fromstring XML_BROKEN [] = (Ok [], []).
Proof.
  split; [reflexivity|].
  apply (unparseable_xml_yields_no_records sample_fromstring XML_BROKEN [] ParseError);
    reflexivity.
Defined.

(** What [_parse_xml_response] returns on a document that parses. *)
Lemma parse_xml_response_parsed
    (fromstring : string -> result ET.Element) (xml_text : string)
    (root : ET.Element) (l : log) :
  fromstring xml_text = Ok root ->
  _parse_xml_response fromstring xml_text l
  = (Ok (flat_map (fun entry =>
                     match _extract_article_data entry with
                     | Some a => [a]
                     | None => []
                     end)
                  (article_entries root)), l).
Proof.
  intros Hroot.
  unfold _parse_xml_response, try_except_ParseError, bind, ET_fromstring, lift, ret.
  rewrite Hroot.
  rewrite (fold_left_appends _
             (fun entry => match _extract_article_data entry with
                           | Some a => [a]
                           | None => []
                           end)).
  - reflexivity.
  - intros acc entry. destruct (_extract_article_data entry); [reflexivity|].
    now rewrite app_nil_r.
Qed.

(** C10, as written, fails: the entry of [XML_MIXED] whose citation sits
    below a wrapper has no [MedlineCitation] child, and its record is
    returned all the same. *)
Lemma citation_below_a_child_counterexample :
  sample_fromstring XML_MIXED = Ok (node "PubmedArticleSet" [wrapped_entry; bare_entry; lee_entry])
  /\ has_citation_child wrapped_entry = false
  /\ exists a rest,
       _extract_article_data wrapped_entry = Some a
       /\ pmid a = Some "11223344"
       /\ _parse_xml_response sample_fromstring XML_MIXED [] = (Ok (a :: rest), []).
Proof.
  split; [reflexivity|]. split; [reflexivity|].
  eexists. eexists. split; [reflexivity|]. split; reflexivity.
Qed.

(** C10, amended.  An article entry with no [MedlineCitation] element
    anywhere below it yields no record; the parser returns the records of
    the entries that have one, in document order, hence fewer records
    than entries as soon as one entry lacks it. *)
Theorem entries_without_citation_are_omitted
    (fromstring : string -> result ET.Element) (xml_text : string)
    (root : ET.Element) (l : log) :
  fromstring xml_text = Ok root ->
  exists records,
    _parse_xml_response fromstring xml_text l = (Ok records, l)
    /\ (forall entry, has_citation entry = false -> _extract_article_data entry = None)
    /\ records
       = flat_map (fun entry =>
                     match _extract_article_data entry with
                     | Some a => [a]
                     | None => []
                     end)
                  (article_entries root)
    /\ List.length records = List.length (filter has_citation (article_entries root))
    /\ ((exists entry, In entry (article_entries root) /\ has_citation entry = false) ->
        List.length records < List.length (article_entries root)).
Proof.
  intros Hroot. eexists. split; [exact (parse_xml_response_parsed _ _ _ l Hroot)|].
  split; [intros entry; apply extract_none_iff|].
  split; [reflexivity|].
  assert (Hlen :
      List.length (flat_map (fun entry => match _extract_article_data entry with
                                     | Some a => [a]
                                     | None => []
                                     end) (article_entries root))
      = List.length (filter has_citation (article_entries root))).
  { rewrite flat_map_optional_length. f_equal. apply filter_ext.
    intros entry. destruct (_extract_article_data entry) eqn:He.
    - destruct (has_citation entry) eqn:Hc; [reflexivity|].
      apply extract_none_iff in Hc. congruence.
    - now apply extract_none_iff in He. }
  split; [exact Hlen|].
  intros [entry [Hin Hno]]. rewrite Hlen.
  clear Hlen. induction (article_entries root) as [|e es IH]; [contradiction|].
  simpl. destruct Hin as [->|Hin].
  - rewrite Hno. pose proof (filter_length_le has_citation es). lia.
  - specialize (IH Hin). destruct (has_citation e); simpl; lia.
Qed.

Lemma entries_without_citation_witness :
  sample_fromstring XML_MIXED
  = Ok (node "PubmedArticleSet" [wrapped_entry; bare_entry; lee_entry])
  /\ exists records,
       _parse_xml_response sample_fromstring XML_MIXED [] = (Ok records, [])
       /\ List.length records = 2.
Proof.
  split; [reflexivity|].
  destruct (entries_without_citation_are_omitted sample_fromstring XML_MIXED
              (node "PubmedArticleSet" [wrapped_entry; bare_entry; lee_entry]) []
              eq_refl)
    as [records [Hrun [_ [_ [Hlen _]]]]].
  exists records. split; [exact Hrun|]. rewrite Hlen. reflexivity.
Defined.

(** C2.  On [XML_TEXTLESS], a document that parses and whose elements are
    present but carry no text, the parser returns a record whose [pmid],
    [title], [journal] and [year] are [None] and whose only author entry
    is [None]: the defaults only cover a missing element. *)
Theorem textless_elements_give_null_fields :
  exists a,
    _parse_xml_response sample_fromstring XML_TEXTLESS [] = (Ok [a], [])
    /\ pmid a = None
    /\ title a = None
    /\ journal a = None
    /\ year a = None
    /\ authors a = [None]
    /\ url a = "https://pubmed.ncbi.nlm.nih.gov/None/".
Proof.
  eexists. split; [reflexivity|]. repeat split.
Qed.

(* ================================================================== *)
(** ** Trees *)

Lemma Element_nested_ind (P : ET.Element -> Prop) :
  (forall t x cs, Forall P cs -> P (ET.Elem t x cs)) -> forall e, P e.
Proof.
  intros Hnode. fix IH 1. intros [t x cs]. apply Hnode.
  induction cs as [|c cs IHcs]; constructor; [apply IH|exact IHcs].
Qed.

Lemma iter_self (e : ET.Element) : In e (ET.iter e).
Proof. destruct e. now left. Qed.

(** Whatever is below an element of a subtree is in the subtree. *)
Lemma iter_closed (e d : ET.Element) :
  In d (ET.iter e) -> incl (ET.iter d) (ET.iter e).
Proof.
  revert d. induction e as [t x cs IH] using Element_nested_ind.
  intros d Hd. cbn [ET.iter] in Hd. destruct Hd as [<-|Hd]; [apply incl_refl|].
  apply in_flat_map in Hd. destruct Hd as [c [Hc Hd]].
  rewrite Forall_forall in IH.
  intros y Hy. cbn [ET.iter]. right. apply in_flat_map.
  exists c. split; [exact Hc|]. exact (IH c Hc d Hd y Hy).
Qed.

Lemma descendants_closed (e d : ET.Element) :
  In d (ET.descendants e) -> incl (ET.iter d) (ET.descendants e).
Proof.
  unfold ET.descendants. intros Hd y Hy.
  apply in_flat_map in Hd. destruct Hd as [c [Hc Hd]].
  apply in_flat_map. exists c. split; [exact Hc|].
  exact (iter_closed c d Hd y Hy).
Qed.

Lemma children_are_descendants (e c : ET.Element) :
  In c (ET.children e) -> In c (ET.descendants e).
Proof.
  intros Hc. unfold ET.descendants. apply in_flat_map.
  exists c. split; [exact Hc|apply iter_self].
Qed.

Lemma descendants_in_iter (e d : ET.Element) :
  In d (ET.descendants e) -> In d (ET.iter e).
Proof.
  destruct e as [t x cs]. intros Hd. cbn [ET.iter]. now right.
Qed.

Lemma descendants_transitive (e d y : ET.Element) :
  In d (ET.descendants e) -> In y (ET.descendants d) -> In y (ET.descendants e).
Proof.
  intros Hd Hy. apply (descendants_closed e d Hd). now apply descendants_in_iter.
Qed.

(** What an ElementPath selects lies below the context element and has
    the tag of the last step. *)
Lemma select_step_below (s : ET.step) (e y : ET.Element) :
  In y (ET.select_step s e) ->
  In y (ET.descendants e)
  /\ ET.tag y = match s with ET.Descendant t => t | ET.Child t => t end.
Proof.
  destruct s as [t|t]; cbn [ET.select_step]; intros Hy;
    apply filter_In in Hy; destruct Hy as [Hin Htag];
    apply String.eqb_eq in Htag.
  - now split.
  - split; [now apply children_are_descendants|exact Htag].
Qed.

Lemma find_descendant_below (t : string) (e y : ET.Element) :
  ET.find [ET.Descendant t] e = Some y -> In y (ET.descendants e) /\ ET.tag y = t.
Proof.
  unfold ET.find. rewrite findall_descendant.
  destruct (filter (ET.has_tag t) (ET.descendants e)) as [|z zs] eqn:Hsel; [discriminate|].
  intros Hy. injection Hy as ->.
  assert (Hin : In y (filter (ET.has_tag t) (ET.descendants e)))
    by (rewrite Hsel; now left).
  apply filter_In in Hin. destruct Hin as [Hin Htag].
  split; [exact Hin|now apply String.eqb_eq].
Qed.

Lemma find_child_below (t : string) (e y : ET.Element) :
  ET.find [ET.Child t] e = Some y -> In y (ET.children e) /\ ET.tag y = t.
Proof.
  unfold ET.find, ET.findall. cbn [ET.select flat_map ET.select_step].
  rewrite app_nil_r.
  destruct (filter (ET.has_tag t) (ET.children e)) as [|z zs] eqn:Hsel; [discriminate|].
  intros Hy. injection Hy as ->.
  assert (Hin : In y (filter (ET.has_tag t) (ET.children e)))
    by (rewrite Hsel; now left).
  apply filter_In in Hin. destruct Hin as [Hin Htag].
  split; [exact Hin|now apply String.eqb_eq].
Qed.

Lemma find_grandchild_below (t1 t2 : string) (e y : ET.Element) :
  ET.find [ET.Descendant t1; ET.Child t2] e = Some y ->
  In y (ET.descendants e) /\ ET.tag y = t2.
Proof.
  unfold ET.find, ET.findall. cbn [ET.select flat_map]. rewrite app_nil_r.
  destruct (flat_map (ET.select_step (ET.Child t2))
              (ET.select_step (ET.Descendant t1) e)) as [|z zs] eqn:Hsel;
    [discriminate|].
  intros Hy. injection Hy as ->.
  assert (Hin : In y (flat_map (ET.select_step (ET.Child t2))
                        (ET.select_step (ET.Descendant t1) e)))
    by (rewrite Hsel; now left).
  apply in_flat_map in Hin. destruct Hin as [d [Hd Hy]].
  apply select_step_below in Hd. apply select_step_below in Hy.
  destruct Hd as [Hd _]. destruct Hy as [Hy Htag].
  split; [exact (descendants_transitive e d y Hd Hy)|exact Htag].
Qed.

Lemma firstn_Forall {A : Type} (P : A -> Prop) (n : nat) (l : list A) :
  Forall P l -> Forall P (firstn n l).
Proof.
  revert l. induction n as [|n IH]; intros l Hall; [constructor|].
  destruct Hall as [|x l Hx Hl]; [constructor|].
  cbn [firstn]. constructor; [exact Hx|now apply IH].
Qed.

(** The fields of the record of an entry, in terms of its citation. *)
Lemma record_fields (article_elem medline : ET.Element) (a : article) :
  ET.find [ET.Descendant "MedlineCitation"] article_elem = Some medline ->
  _extract_article_data article_elem = Some a ->
  pmid a = text_or (ET.find [ET.Descendant "PMID"] medline) "Unknown"
  /\ title a = text_or (ET.find [ET.Descendant "ArticleTitle"] medline) "No title available"
  /\ journal a
     = text_or (ET.find [ET.Descendant "Journal"; ET.Child "Title"] medline) "Unknown Journal"
  /\ year a = text_or (ET.find [ET.Descendant "PubDate"; ET.Child "Year"] medline) "N/A"
  /\ authors a
     = firstn 5 (flat_map appended_for (ET.findall [ET.Descendant "Author"] medline))
  /\ url a = Py.fstring ["https://pubmed.ncbi.nlm.nih.gov/"; Py.format_text (pmid a); "/"].
Proof.
  intros Hfind. unfold _extract_article_data. rewrite Hfind.
  intros Ha. apply some_eq in Ha. subst a.
  lazy beta iota delta [pmid title journal year authors url].
  repeat (split; [reflexivity|]). split; [|reflexivity].
  rewrite (fold_left_appends _ appended_for); [reflexivity|].
  intros acc author. unfold appended_for.
  destruct (ET.find [ET.Child "LastName"] author) as [last|];
    [destruct (ET.find [ET.Child "ForeName"] author) as [first|]|];
    try reflexivity.
  now rewrite app_nil_r.
Qed.

(** The author entries are strings as soon as the last names have text. *)
Lemma authors_named (medline : ET.Element) :
  (forall e, In e (ET.descendants medline) -> ET.tag e = "LastName" -> ET.text e <> None) ->
  Forall (fun entry => entry <> None)
         (firstn 5 (flat_map appended_for (ET.findall [ET.Descendant "Author"] medline))).
Proof.
  intros Htext. apply firstn_Forall, Forall_forall. intros entry Hentry.
  apply in_flat_map in Hentry. destruct Hentry as [author [Hauthor Hentry]].
  rewrite findall_descendant in Hauthor. apply filter_In in Hauthor.
  destruct Hauthor as [Hauthor _].
  unfold appended_for in Hentry.
  destruct (ET.find [ET.Child "LastName"] author) as [last|] eqn:Hlast;
    [|contradiction].
  apply find_child_below in Hlast. destruct Hlast as [Hchild Htag].
  destruct (ET.find [ET.Child "ForeName"] author) as [first|].
  - destruct Hentry as [<-|[]]. discriminate.
  - destruct Hentry as [<-|[]].
    apply Htext; [|exact Htag].
    apply (descendants_transitive medline author last Hauthor).
    now apply children_are_descendants.
Qed.

(* ================================================================== *)
(** ** Authors and abstract *)

(** With text in the name elements, the loop appends the name of each
    author that has one. *)
Lemma appended_names (medline author : ET.Element) :
  (forall e, In e (ET.descendants medline) ->
             ET.tag e = "LastName" \/ ET.tag e = "ForeName" -> ET.text e <> None) ->
  In author (ET.descendants medline) ->
  appended_for author
  = match author_name author with
    | Some name => [Some name]
    | None => []
    end.
Proof.
  intros Htext Hauthor. unfold appended_for, author_name, child_text.
  destruct (ET.find [ET.Child "LastName"] author) as [last|] eqn:Hlast; [|reflexivity].
  apply find_child_below in Hlast. destruct Hlast as [Hlast Hltag].
  assert (Hl : ET.text last <> None).
  { apply Htext; [|now left].
    apply (descendants_transitive medline author last Hauthor).
    now apply children_are_descendants. }
  destruct (ET.text last) as [l|]; [|congruence].
  destruct (ET.find [ET.Child "ForeName"] author) as [first|] eqn:Hfirst; [|reflexivity].
  apply find_child_below in Hfirst. destruct Hfirst as [Hfirst Hftag].
  assert (Hf : ET.text first <> None).
  { apply Htext; [|now right].
    apply (descendants_transitive medline author first Hauthor).
    now apply children_are_descendants. }
  destruct (ET.text first) as [f|]; [reflexivity|congruence].
Qed.

Lemma flat_map_names {A : Type} (f : A -> list (option string)) (g : A -> option string)
    (l : list A) :
  (forall x, In x l -> f x = match g x with Some name => [Some name] | None => [] end) ->
  flat_map f l
  = map Some (flat_map (fun x => match g x with Some name => [name] | None => [] end) l).
Proof.
  induction l as [|x l IH]; intros Hall; [reflexivity|].
  cbn [flat_map]. rewrite map_app, (Hall x (or_introl eq_refl)), IH.
  - now destruct (g x).
  - intros y Hy. apply Hall. now right.
Qed.

(** C4, as written, fails on [crowded_entry]: its third [Author] has no
    last name and gets no entry, so the fifth entry kept is the name of
    the sixth [Author], which is not among the first five. *)
Lemma sixth_author_counterexample :
  exists medline a,
    ET.find [ET.Descendant "MedlineCitation"] crowded_entry = Some medline
    /\ _extract_article_data crowded_entry = Some a
    /\ firstn 5 (ET.findall [ET.Descendant "Author"] medline)
       = [author "Adams" "Ann"; node "Author" [leaf "LastName" "Brown"];
          node "Author" [leaf "CollectiveName" "Stroke Trial Group"];
          author "Clark" "Cy"; author "Diaz" "Dee"]
    /\ nth_error (ET.findall [ET.Descendant "Author"] medline) 5
       = Some (author "Evans" "Eli")
    /\ authors a = [Some "Adams, Ann"; Some "Brown"; Some "Clark, Cy";
                    Some "Diaz, Dee"; Some "Evans, Eli"].
Proof.
  do 2 eexists. repeat split; reflexivity.
Qed.

(** C4, amended.  The [authors] of a record are at most five; when the
    [LastName] and [ForeName] elements of the citation carry text, they
    are the names, written "LastName, ForeName" or just the last name
    when the forename is absent, of the first five authors that have a
    last name, in document order. *)
Theorem authors_are_the_first_five_names (article_elem medline : ET.Element) (a : article) :
  ET.find [ET.Descendant "MedlineCitation"] article_elem = Some medline ->
  _extract_article_data article_elem = Some a ->
  List.length (authors a) <= 5
  /\ ((forall e, In e (ET.descendants medline) ->
                 ET.tag e = "LastName" \/ ET.tag e = "ForeName" -> ET.text e <> None) ->
      authors a = map Some (firstn 5 (author_names medline))).
Proof.
  intros Hfind Ha.
  destruct (record_fields article_elem medline a Hfind Ha)
    as [_ [_ [_ [_ [Hauthors _]]]]].
  rewrite Hauthors. split; [apply firstn_le_length|].
  intros Htext. unfold author_names.
  rewrite <- firstn_map. f_equal.
  apply flat_map_names. intros author Hauthor.
  apply (appended_names medline author Htext).
  rewrite findall_descendant in Hauthor. apply filter_In in Hauthor. tauto.
Qed.

Lemma authors_witness :
  exists medline a,
    ET.find [ET.Descendant "MedlineCitation"] crowded_entry = Some medline
    /\ _extract_article_data crowded_entry = Some a
    /\ (forall e, In e (ET.descendants medline) ->
                  ET.tag e = "LastName" \/ ET.tag e = "ForeName" -> ET.text e <> None)
    /\ authors a = map Some ["Adams, Ann"; "Brown"; "Clark, Cy"; "Diaz, Dee"; "Evans, Eli"].
Proof.
  destruct (ET.find [ET.Descendant "MedlineCitation"] crowded_entry) as [medline|] eqn:Hfind;
    [|discriminate].
  destruct (_extract_article_data crowded_entry) as [a|] eqn:Ha; [|discriminate].
  assert (Htext : forall e, In e (ET.descendants medline) ->
                            ET.tag e = "LastName" \/ ET.tag e = "ForeName" ->
                            ET.text e <> None).
  { vm_compute in Hfind. injection Hfind as <-.
    intros e He Htag. vm_compute in He.
    repeat (destruct He as [<-|He];
            [first [discriminate | destruct Htag as [Htag|Htag]; discriminate Htag]|]).
    contradiction. }
  exists medline, a. split; [reflexivity|]. split; [reflexivity|]. split; [exact Htext|].
  rewrite (proj2 (authors_are_the_first_five_names crowded_entry medline a Hfind Ha) Htext).
  vm_compute in Hfind. injection Hfind as <-. reflexivity.
Defined.

(** C7.  When the citation of an entry has [AbstractText] elements and
    none of them has text before its first child, the [abstract] of the
    record is the empty string, not the placeholder. *)
Theorem textless_abstract_is_empty (article_elem medline : ET.Element) (a : article) :
  ET.find [ET.Descendant "MedlineCitation"] article_elem = Some medline ->
  _extract_article_data article_elem = Some a ->
  ET.findall [ET.Descendant "AbstractText"] medline <> [] ->
  Forall (fun part => Py.truthy_text (ET.text part) = false)
         (ET.findall [ET.Descendant "AbstractText"] medline) ->
  abstract a = "" /\ abstract a <> "No abstract available.".
Proof.
  intros Hfind. unfold _extract_article_data. rewrite Hfind.
  intros Ha Hparts Htextless. apply some_eq in Ha. subst a.
  lazy beta iota delta [abstract].
  destruct (ET.findall [ET.Descendant "AbstractText"] medline) as [|part parts] eqn:Hall;
    [contradiction|].
  rewrite flat_map_nothing; [split; [reflexivity|discriminate]|].
  apply Forall_forall. intros p Hp. rewrite Forall_forall in Htextless.
  specialize (Htextless p Hp).
  destruct (ET.text p) as [s|]; [|reflexivity]. now rewrite Htextless.
Qed.

Lemma textless_abstract_witness :
  exists a,
    _parse_xml_response sample_fromstring XML_ITALIC [] = (Ok [a], [])
    /\ pmid a = Some "22222222"
    /\ abstract a = "".
Proof.
  eexists. split; [reflexivity|]. split; [reflexivity|].
  refine (proj1 (textless_abstract_is_empty italic_entry _ _ _ eq_refl _ _)).
  - reflexivity.
  - discriminate.
  - repeat constructor.
Defined.

Lemma flat_map_texts (parts : list ET.Element) :
  forall texts,
    map ET.text parts = map Some texts ->
    Forall (fun s => s <> "") texts ->
    flat_map (fun part =>
                match ET.text part with
                | Some s => if Py.truthy_text (Some s) then [s] else []
                | None => []
                end) parts
    = texts.
Proof.
  induction parts as [|part parts IH]; intros [|s texts] Hmap Hall; try discriminate.
  - reflexivity.
  - cbn [map] in Hmap. injection Hmap as Hpart Hparts.
    inversion Hall as [|? ? Hs Hrest]; subst.
    cbn [flat_map]. rewrite Hpart, (IH texts Hparts Hrest).
    cbn [Py.truthy_text]. apply String.eqb_neq in Hs. now rewrite Hs.
Qed.

(** X10.  When every [AbstractText] element of the citation has a text
    of its own that is not empty, the [abstract] of the record is these
    texts in document order, joined by single spaces; it is the
    placeholder when the citation has no [AbstractText] element. *)
Theorem abstract_joins_the_texts
    (article_elem medline : ET.Element) (a : article) (texts : list string) :
  ET.find [ET.Descendant "MedlineCitation"] article_elem = Some medline ->
  _extract_article_data article_elem = Some a ->
  map ET.text (ET.findall [ET.Descendant "AbstractText"] medline) = map Some texts ->
  Forall (fun s => s <> "") texts ->
  abstract a = match texts with
               | [] => "No abstract available."
               | _ :: _ => String.concat " " texts
               end.
Proof.
  intros Hfind. unfold _extract_article_data. rewrite Hfind.
  intros Ha Hmap Hall. apply some_eq in Ha. subst a.
  lazy beta iota delta [abstract].
  destruct (ET.findall [ET.Descendant "AbstractText"] medline) as [|part parts] eqn:Hparts.
  - now destruct texts.
  - rewrite (flat_map_texts (part :: parts) texts Hmap Hall).
    destruct texts; [discriminate|reflexivity].
Qed.

Lemma abstract_witness :
  exists a,
    _extract_article_data smith_entry = Some a
    /\ abstract a = "Early therapy helps. Gains persist at one year.".
Proof.
  eexists. split; [reflexivity|].
  refine (abstract_joins_the_texts smith_entry _ _
            ["Early therapy helps."; "Gains persist at one year."] eq_refl eq_refl eq_refl _).
  repeat constructor; discriminate.
Defined.

(* ================================================================== *)
(** ** More on the record parser *)

(** X1.  When every [PMID], [ArticleTitle], [Title], [Year] and
    [LastName] element below the citation of an entry carries text, the
    record of the entry has a string for [pmid], [title], [journal],
    [year] and every author entry. *)
Theorem texts_present_give_strings (article_elem medline : ET.Element) (a : article) :
  ET.find [ET.Descendant "MedlineCitation"] article_elem = Some medline ->
  _extract_article_data article_elem = Some a ->
  (forall e, In e (ET.descendants medline) -> text_taken e = true -> ET.text e <> None) ->
  pmid a <> None /\ title a <> None /\ journal a <> None /\ year a <> None
  /\ Forall (fun entry => entry <> None) (authors a).
Proof.
  intros Hfind Ha Htext.
  destruct (record_fields article_elem medline a Hfind Ha)
    as [Hpmid [Htitle [Hjournal [Hyear [Hauthors _]]]]].
  assert (Hfield : forall found default t,
            (forall y, found = Some y -> In y (ET.descendants medline) /\ ET.tag y = t) ->
            In t ["PMID"; "ArticleTitle"; "Title"; "Year"; "LastName"] ->
            text_or found default <> None).
  { intros found default t Hbelow Ht. destruct found as [y|]; [|discriminate].
    destruct (Hbelow y eq_refl) as [Hy Htag]. cbn [text_or].
    apply Htext; [exact Hy|]. unfold text_taken. apply existsb_exists.
    exists t. split; [exact Ht|]. rewrite Htag. apply String.eqb_refl. }
  rewrite Hpmid, Htitle, Hjournal, Hyear, Hauthors.
  split; [|split; [|split; [|split]]].
  - apply (Hfield _ _ "PMID"); [apply find_descendant_below|simpl; tauto].
  - apply (Hfield _ _ "ArticleTitle"); [apply find_descendant_below|simpl; tauto].
  - apply (Hfield _ _ "Title"); [apply find_grandchild_below|simpl; tauto].
  - apply (Hfield _ _ "Year"); [apply find_grandchild_below|simpl; tauto].
  - apply authors_named. intros e He Htag. apply Htext; [exact He|].
    unfold text_taken. rewrite Htag. reflexivity.
Qed.

Lemma texts_present_witness :
  exists medline a,
    ET.find [ET.Descendant "MedlineCitation"] smith_entry = Some medline
    /\ _extract_article_data smith_entry = Some a
    /\ (forall e, In e (ET.descendants medline) -> text_taken e = true ->
                  ET.text e <> None)
    /\ pmid a = Some "12345678"
    /\ Forall (fun entry => entry <> None) (authors a).
Proof.
  destruct (ET.find [ET.Descendant "MedlineCitation"] smith_entry) as [medline|] eqn:Hfind;
    [|discriminate].
  destruct (_extract_article_data smith_entry) as [a|] eqn:Ha; [|discriminate].
  assert (Htext : forall e, In e (ET.descendants medline) -> text_taken e = true ->
                            ET.text e <> None).
  { vm_compute in Hfind. injection Hfind as <-.
    intros e He Htaken. vm_compute in He.
    repeat (destruct He as [<-|He]; [first [discriminate Htaken|discriminate]|]).
    contradiction. }
  exists medline, a. split; [reflexivity|]. split; [reflexivity|]. split; [exact Htext|].
  split.
  - vm_compute in Ha. injection Ha as <-. reflexivity.
  - exact (proj2 (proj2 (proj2 (proj2
             (texts_present_give_strings smith_entry medline a Hfind Ha Htext))))).
Defined.

(* ================================================================== *)
(** ** The research context of the analyzer *)

Lemma texts_of_strings (items : list (option string)) :
  forallb (fun entry => match entry with Some _ => true | None => false end) items
  = match texts_of items with Some _ => true | None => false end.
Proof.
  induction items as [|[s|] items IH]; [reflexivity| |reflexivity].
  cbn [forallb texts_of andb]. rewrite IH. now destruct (texts_of items).
Qed.

Lemma context_parts_outcome (articles : list article) :
  forall i context_parts,
    if authors_are_strings articles
    then exists parts, context_parts_from i articles context_parts = Ok parts
    else context_parts_from i articles context_parts = Raise TypeError.
Proof.
  induction articles as [|a articles IH]; intros i context_parts.
  - now eexists.
  - cbn [authors_are_strings forallb context_parts_from].
    unfold join_texts. rewrite texts_of_strings.
    destruct (texts_of (authors a)) as [strs|]; [|reflexivity].
    cbn [andb]. apply IH.
Qed.

(** What [_build_research_context] does, by the author entries. *)
Lemma build_research_context_outcome (articles : list article) :
  if authors_are_strings articles
  then exists context, _build_research_context articles = Ok context
  else _build_research_context articles = Raise TypeError.
Proof.
  unfold _build_research_context.
  pose proof (context_parts_outcome articles 1 []) as Hparts.
  destruct (authors_are_strings articles).
  - destruct Hparts as [parts ->]. now eexists.
  - now rewrite Hparts.
Qed.

(** X2.  [_build_research_context] returns the context when every author
    entry of every record is a string, and raises [TypeError] as soon as
    one entry is [None]. *)
Theorem context_needs_author_strings (articles : list article) :
  (authors_are_strings articles = true ->
   exists context, _build_research_context articles = Ok context)
  /\ (authors_are_strings articles = false ->
      _build_research_context articles = Raise TypeError).
Proof.
  pose proof (build_research_context_outcome articles) as Hout.
  destruct (authors_are_strings articles).
  - split; [intros _; exact Hout|discriminate].
  - split; [discriminate|intros _; exact Hout].
Qed.

Lemma context_witness :
  exists a,
    _extract_article_data textless_entry = Some a
    /\ authors_are_strings [a] = false
    /\ _build_research_context [a] = Raise TypeError.
Proof.
  destruct (_extract_article_data textless_entry) as [a|] eqn:Ha; [|discriminate].
  assert (Hauthors : authors_are_strings [a] = false)
    by (vm_compute in Ha; injection Ha as <-; reflexivity).
  exists a. split; [reflexivity|]. split; [exact Hauthors|].
  exact (proj2 (context_needs_author_strings [a]) Hauthors).
Defined.

Lemma forallb_flat_map {A B : Type} (p : B -> bool) (f : A -> list B) (l : list A) :
  (forall x, In x l -> forallb p (f x) = true) -> forallb p (flat_map f l) = true.
Proof.
  induction l as [|x l IH]; intros Hall; [reflexivity|].
  cbn [flat_map]. rewrite forallb_app, (Hall x (or_introl eq_refl)).
  apply IH. intros y Hy. apply Hall. now right.
Qed.

(** X3.  The records parsed from a document all of whose [LastName]
    elements carry text always build a research context: the parser's
    output can be handed to the analyzer as it is. *)
Theorem parsed_records_build_a_context
    (fromstring : string -> result ET.Element) (xml_text : string)
    (root : ET.Element) (l : log) :
  fromstring xml_text = Ok root ->
  (forall e, In e (ET.descendants root) -> ET.tag e = "LastName" -> ET.text e <> None) ->
  exists records context,
    _parse_xml_response fromstring xml_text l = (Ok records, l)
    /\ _build_research_context records = Ok context.
Proof.
  intros Hroot Htext.
  rewrite (parse_xml_response_parsed fromstring xml_text root l Hroot).
  eexists. 
  assert (Hstrings :
    authors_are_strings
      (flat_map (fun entry => match _extract_article_data entry with
                              | Some a => [a]
                              | None => []
                              end) (article_entries root)) = true).
  { unfold authors_are_strings. apply forallb_flat_map. intros entry Hentry.
    destruct (_extract_article_data entry) as [a|] eqn:Ha; [|reflexivity].
    cbn [forallb]. rewrite andb_true_r.
    unfold article_entries in Hentry. rewrite findall_descendant in Hentry.
    apply filter_In in Hentry. destruct Hentry as [Hentry _].
    destruct (ET.find [ET.Descendant "MedlineCitation"] entry) as [medline|] eqn:Hfind.
    - destruct (record_fields entry medline a Hfind Ha) as [_ [_ [_ [_ [Hauthors _]]]]].
      rewrite Hauthors. apply forallb_forall. intros item Hitem.
      assert (Hall := authors_named medline).
      rewrite Forall_forall in Hall.
      assert (Hsome : item <> None).
      { apply Hall; [|exact Hitem]. intros e He. apply Htext.
        apply find_descendant_below in Hfind. destruct Hfind as [Hmed _].
        exact (descendants_transitive root medline e
                 (descendants_transitive root entry medline Hentry Hmed) He). }
      now destruct item.
    - unfold _extract_article_data in Ha. rewrite Hfind in Ha. discriminate. }
  pose proof (build_research_context_outcome
                (flat_map (fun entry => match _extract_article_data entry with
                                        | Some a => [a]
                                        | None => []
                                        end) (article_entries root))) as Hout.
  rewrite Hstrings in Hout. destruct Hout as [context Hcontext].
  exists context. split; [reflexivity|exact Hcontext].
Qed.

Lemma parsed_context_witness :
  sample_fromstring XML_ONE = Ok (node "PubmedArticleSet" [smith_entry])
  /\ (forall e, In e (ET.descendants (node "PubmedArticleSet" [smith_entry])) ->
                ET.tag e = "LastName" -> ET.text e <> None)
  /\ exists records context,
       _parse_xml_response sample_fromstring XML_ONE [] = (Ok records, [])
       /\ _build_research_context records = Ok context.
Proof.
  assert (Htext : forall e, In e (ET.descendants (node "PubmedArticleSet" [smith_entry])) ->
                            ET.tag e = "LastName" -> ET.text e <> None).
  { intros e He Htag. vm_compute in He.
    repeat (destruct He as [<-|He]; [first [discriminate Htag|discriminate]|]).
    contradiction. }
  split; [reflexivity|]. split; [exact Htext|].
  exact (parsed_records_build_a_context sample_fromstring XML_ONE
           (node "PubmedArticleSet" [smith_entry]) [] eq_refl Htext).
Defined.

(* ================================================================== *)
(** ** Stripping *)

Lemma lstrip_clean_start (s : string) : clean_start (Py.lstrip s) = true.
Proof.
  induction s as [|c s IH]; [reflexivity|].
  simpl. destruct (Py.isspace c) eqn:Hc; [exact IH|].
  simpl. now rewrite Hc.
Qed.

Lemma lstrip_fixed (s : string) : clean_start s = true -> Py.lstrip s = s.
Proof.
  destruct s as [|c s]; [reflexivity|].
  simpl. now destruct (Py.isspace c).
Qed.

Lemma rstrip_clean_start (s : string) :
  clean_start s = true -> clean_start (Py.rstrip s) = true.
Proof.
  destruct s as [|c s]; [reflexivity|].
  simpl. intros Hc. destruct (Py.rstrip s).
  - destruct (Py.isspace c) eqn:Hsp; [discriminate|]. simpl. now rewrite Hsp.
  - exact Hc.
Qed.

Lemma rstrip_idempotent (s : string) : Py.rstrip (Py.rstrip s) = Py.rstrip s.
Proof.
  induction s as [|c s IH]; [reflexivity|].
  simpl. destruct (Py.rstrip s) as [|d kept] eqn:Hs.
  - destruct (Py.isspace c) eqn:Hc; [reflexivity|].
    simpl. now rewrite Hc.
  - change (Py.rstrip (String c (String d kept)))
      with (match Py.rstrip (String d kept) with
            | "" => if Py.isspace c then "" else String c ""
            | String d' kept' => String c (String d' kept')
            end).
    now rewrite IH.
Qed.

Lemma rstrip_append (p q : string) :
  q <> "" -> Py.rstrip q = q -> Py.rstrip (p ++ q) = (p ++ q)%string.
Proof.
  intros Hq Hfix. induction p as [|c p IH]; [exact Hfix|].
  simpl. rewrite IH.
  destruct (p ++ q)%string eqn:Hpq; [|reflexivity].
  destruct p; simpl in Hpq; [contradiction|discriminate].
Qed.

Lemma strip_piece (s : string) : Py.strip s <> "" -> piece (Py.strip s).
Proof.
  intros Hne. split; [exact Hne|]. unfold Py.strip. split.
  - apply rstrip_clean_start, lstrip_clean_start.
  - apply rstrip_idempotent.
Qed.

Lemma piece_trimmed (s : string) : piece s -> trimmed s.
Proof.
  intros [_ [Hstart Hend]]. unfold trimmed, Py.strip.
  now rewrite (lstrip_fixed s Hstart).
Qed.

Lemma concat_pieces (pieces : list string) :
  Forall piece pieces -> pieces <> [] -> piece (String.concat "" pieces).
Proof.
  induction pieces as [|p rest IH]; [congruence|].
  intros Hall _. inversion Hall as [|? ? Hp Hrest]; subst.
  destruct rest as [|p' rest]; [exact Hp|].
  change (String.concat "" (p :: p' :: rest))
    with (p ++ String.concat "" (p' :: rest))%string.
  destruct (IH Hrest ltac:(discriminate)) as [Hne [_ Hend]].
  destruct Hp as [Hpne [Hstart _]].
  split; [|split].
  - destruct p; [contradiction|discriminate].
  - destruct p; [contradiction|exact Hstart].
  - now apply rstrip_append.
Qed.

(** [get_text(strip=True)] never has surrounding whitespace. *)
Lemma get_text_strip_trimmed (e : BS.PageElement) : trimmed (BS.get_text_strip e).
Proof.
  unfold BS.get_text_strip.
  destruct (BS.stripped_strings e) as [|p rest] eqn:Hpieces; [reflexivity|].
  apply piece_trimmed, concat_pieces; [|discriminate].
  rewrite <- Hpieces. unfold BS.stripped_strings.
  apply Forall_forall. intros s Hin.
  apply filter_In in Hin. destruct Hin as [Hin Hne].
  apply in_map_iff in Hin. destruct Hin as [raw [<- _]].
  apply strip_piece. intros Hempty. rewrite Hempty in Hne. discriminate.
Qed.

(** The loop over the buttons keeps the texts that are not empty. *)
Lemma collect_texts_filter (buttons : list BS.PageElement) :
  collect_texts buttons
  = filter (fun s => negb (s =? "")) (map BS.get_text_strip buttons).
Proof.
  unfold collect_texts.
  rewrite (fold_left_appends _
             (fun b => if negb (BS.get_text_strip b =? "")
                       then [BS.get_text_strip b] else [])).
  - cbn [app]. induction buttons as [|b buttons IH]; [reflexivity|].
    cbn [flat_map map filter]. rewrite IH.
    now destruct (negb (BS.get_text_strip b =? "")).
  - intros acc b. destruct (negb (BS.get_text_strip b =? "")); [reflexivity|].
    now rewrite app_nil_r.
Qed.

Lemma button_texts_clean (class_ : option string) (region : BS.PageElement) :
  Forall (fun s => s <> "" /\ trimmed s) (button_texts class_ region).
Proof.
  unfold button_texts. apply Forall_forall. intros s Hin.
  apply filter_In in Hin. destruct Hin as [Hin Hne].
  apply in_map_iff in Hin. destruct Hin as [b [<- _]].
  split; [|apply get_text_strip_trimmed].
  intros Hempty. rewrite Hempty in Hne. discriminate.
Qed.

(* ================================================================== *)
(** ** The supplementary page extractor *)

(** [scrape_full_article_page], outcome by outcome of its request and of
    the page parser. *)
Lemma scrape_cases
    (BeautifulSoup : string -> result BS.PageElement) (self : PubMedScraper)
    (pmid : option string) (l : log) :
  scrape_full_article_page BeautifulSoup self pmid l
  = let caught e :=
      (Ok no_fields,
       Print (Py.fstring ["Error scraping article page "; Py.format_text pmid; ": "]) e
       :: page_request pmid :: l) in
    match session self (page_request pmid :: l) with
    | Requests.Raises e =>
        if is_request_exception e then caught e else (Raise e, page_request pmid :: l)
    | Requests.Responds r =>
        if transport_failure (Requests.Responds r)
        then caught (RequestException HTTPError)
        else match BeautifulSoup (Requests.text r) with
             | Ok soup => (Ok (fields_of soup), page_request pmid :: l)
             | Raise e =>
                 if is_request_exception e then caught e
                 else (Raise e, page_request pmid :: l)
             end
    end.
Proof.
  unfold scrape_full_article_page, try_except_RequestException, bind, session_get,
    page_request.
  destruct (session self _) as [e|r]; [now destruct e|].
  unfold raise_for_status, transport_failure.
  destruct ((400 <=? Requests.status_code r)%Z && (Requests.status_code r <? 600)%Z);
    [reflexivity|].
  unfold ret, lift.
  destruct (BeautifulSoup (Requests.text r)) as [soup|e]; [|now destruct e].
  unfold fields_of, button_texts.
  destruct (BS.find "div" (Some "keywords-section") soup);
    destruct (BS.find "div" (Some "mesh-terms") soup);
    rewrite ?collect_texts_filter; reflexivity.
Qed.

(** What [scrape_full_article_page] does when the request fails. *)
Lemma scrape_degrades
    (BeautifulSoup : string -> result BS.PageElement) (self : PubMedScraper)
    (pmid : option string) (l : log) :
  transport_failure (session self (page_request pmid :: l)) = true ->
  exists e,
    scrape_full_article_page BeautifulSoup self pmid l
    = (Ok no_fields,
       Print (Py.fstring ["Error scraping article page "; Py.format_text pmid; ": "]) e
       :: page_request pmid :: l).
Proof.
  intros Hfail. rewrite scrape_cases. cbv zeta.
  destruct (session self _) as [e|r].
  - cbn [transport_failure] in Hfail. rewrite Hfail. now eexists.
  - rewrite Hfail. now eexists.
Qed.

(** With a tame session and a tame page parser the extractor returns. *)
Lemma scrape_returns
    (BeautifulSoup : string -> result BS.PageElement) (self : PubMedScraper)
    (pmid : option string) (l : log) :
  tame_session self ->
  tame_soup BeautifulSoup self ->
  exists extra l',
    scrape_full_article_page BeautifulSoup self pmid l = (Ok extra, l').
Proof.
  intros Hsession Hsoup. rewrite scrape_cases. cbv zeta.
  destruct (session self _) as [e|r] eqn:Hresp.
  - rewrite (Hsession _ e Hresp). now eexists; eexists.
  - destruct (transport_failure (Requests.Responds r)) eqn:Hfail; [now eexists; eexists|].
    destruct (BeautifulSoup (Requests.text r)) as [soup|e] eqn:Hparse;
      [now eexists; eexists|].
    now contradiction (Hsoup pmid l r e Hresp Hfail Hparse).
Qed.

(** C8, as written, fails on [PAGE]: the keywords come from buttons two
    levels below the region while its one child button, which lacks the
    trigger class, is left out; and the subject term loses the space
    inside it, each of its strings being stripped on its own. *)
Lemma nested_buttons_counterexample :
  exists keyword_region mesh_region extra l,
    BS.find "div" (Some "keywords-section") PAGE_soup = Some keyword_region
    /\ BS.find "div" (Some "mesh-terms") PAGE_soup = Some mesh_region
    /\ sample_BeautifulSoup PAGE = Ok PAGE_soup
    /\ scrape_full_article_page sample_BeautifulSoup stroke_scraper (Some "12345678") []
       = (Ok extra, l)
    /\ extra_keywords extra = ["stroke"; "rehabilitation"]
    /\ child_button_texts keyword_region = ["Show all"]
    /\ extra_mesh_terms extra = ["PhysicalTherapy"]
    /\ child_button_texts mesh_region = [].
Proof.
  do 4 eexists. repeat split; reflexivity.
Qed.

(** C8, amended.  For every page that arrives and that the page parser
    accepts, the extractor returns, for the first keywords region, the
    texts of the buttons anywhere inside it that carry the trigger class
    and, for the first subject-terms region, those of all buttons
    anywhere inside it, in document order; a text is the strings of the
    button, each stripped, put together; empty texts are skipped and none
    has surrounding whitespace.  A missing region gives the empty list,
    and nothing is raised. *)
Theorem page_extractor_reads_the_regions
    (BeautifulSoup : string -> result BS.PageElement) (self : PubMedScraper)
    (pmid : option string) (l : log) (r : Requests.Response) (soup : BS.PageElement) :
  session self (page_request pmid :: l) = Requests.Responds r ->
  transport_failure (Requests.Responds r) = false ->
  BeautifulSoup (Requests.text r) = Ok soup ->
  exists extra,
    scrape_full_article_page BeautifulSoup self pmid l = (Ok extra, page_request pmid :: l)
    /\ (forall region,
          BS.find "div" (Some "keywords-section") soup = Some region ->
          extra_keywords extra = button_texts (Some "keyword-actions-trigger") region)
    /\ (BS.find "div" (Some "keywords-section") soup = None -> extra_keywords extra = [])
    /\ (forall region,
          BS.find "div" (Some "mesh-terms") soup = Some region ->
          extra_mesh_terms extra = button_texts None region)
    /\ (BS.find "div" (Some "mesh-terms") soup = None -> extra_mesh_terms extra = [])
    /\ Forall (fun s => s <> "" /\ trimmed s) (extra_keywords extra ++ extra_mesh_terms extra).
Proof.
  intros Hresp Hok Hsoup. exists (fields_of soup).
  split; [rewrite scrape_cases; cbv zeta; now rewrite Hresp, Hok, Hsoup|].
  unfold fields_of. cbn [extra_keywords extra_mesh_terms].
  destruct (BS.find "div" (Some "keywords-section") soup) as [kw|];
    destruct (BS.find "div" (Some "mesh-terms") soup) as [mesh|];
    repeat split; intros; try congruence; try discriminate;
    rewrite ?app_nil_r; try apply Forall_app; repeat split;
    try apply button_texts_clean; try apply Forall_nil.
Qed.

Lemma page_extractor_witness :
  session stroke_scraper [page_request (Some "12345678")] = ok PAGE
  /\ transport_failure (ok PAGE) = false
  /\ sample_BeautifulSoup PAGE = Ok PAGE_soup
  /\ exists extra,
       scrape_full_article_page sample_BeautifulSoup stroke_scraper (Some "12345678") []
       = (Ok extra, [page_request (Some "12345678")])
       /\ extra_keywords extra = ["stroke"; "rehabilitation"]
       /\ extra_mesh_terms extra = ["PhysicalTherapy"].
Proof.
  split; [reflexivity|]. split; [reflexivity|]. split; [reflexivity|].
  destruct (page_extractor_reads_the_regions sample_BeautifulSoup stroke_scraper
              (Some "12345678") []
              {| Requests.status_code := 200; Requests.text := PAGE |} PAGE_soup
              eq_refl eq_refl eq_refl)
    as [extra [Hrun [Hkeywords [_ [Hmesh _]]]]].
  exists extra. split; [exact Hrun|]. split.
  - exact (Hkeywords _ eq_refl).
  - exact (Hmesh _ eq_refl).
Defined.

(* ================================================================== *)
(** ** The search resolver and the detail fetcher *)

Lemma traffic_cons (ev : event) (l : log) :
  traffic (ev :: l)
  = traffic l ++ match ev with Print _ _ => [] | _ => [ev] end.
Proof.
  unfold traffic. cbn [rev]. rewrite filter_app. f_equal.
  now destruct ev.
Qed.

Lemma requests_cons (ev : event) (l : log) :
  requests_of (ev :: l)
  = requests_of l ++ match ev with Get url _ _ => [url] | _ => [] end.
Proof.
  unfold requests_of. cbn [rev]. rewrite flat_map_app. cbn [flat_map].
  now rewrite app_nil_r.
Qed.

Lemma all_str_map (ids : list string) : Py.all_str (map Py.PStr ids) = Some ids.
Proof.
  induction ids as [|s ids IH]; [reflexivity|]. simpl. now rewrite IH.
Qed.



Section Pipeline.

Variable json_loads : string -> result Py.value.
Variable fromstring : string -> result ET.Element.
Variable BeautifulSoup : string -> result BS.PageElement.
Variable self : PubMedScraper.

(** [search_articles], outcome by outcome of its request and of the
    decoding. *)
Lemma search_articles_cases (query : string) (max_results : option Z) (l : log) :
  search_articles json_loads self query max_results l
  = let caught e :=
      (Ok (Py.PList []),
       Print "Error searching PubMed: " e :: search_request self query max_results :: l) in
    match session self (search_request self query max_results :: l) with
    | Requests.Raises e =>
        if is_request_exception e then caught e
        else (Raise e, search_request self query max_results :: l)
    | Requests.Responds r =>
        if transport_failure (Requests.Responds r)
        then caught (RequestException HTTPError)
        else match json_loads (Requests.text r) with
             | Raise e =>
                 if is_request_exception e then caught e
                 else (Raise e, search_request self query max_results :: l)
             | Ok data => (idlist_of data, search_request self query max_results :: l)
             end
    end.
Proof.
  unfold search_articles, try_except_RequestException, bind, session_get, search_request.
  destruct (session self _) as [e|r]; [now destruct e|].
  unfold raise_for_status, transport_failure.
  destruct ((400 <=? Requests.status_code r)%Z && (Requests.status_code r <? 600)%Z);
    [reflexivity|].
  unfold ret, response_json, lift.
  destruct (json_loads (Requests.text r)) as [data|e]; [|now destruct e].
  unfold ret, idlist_of, dict_get.
  destruct data; try reflexivity.
  destruct (Py.assoc "esearchresult" entries) as [v|]; [|reflexivity].
  destruct v; reflexivity.
Qed.

(** Whatever the search does, the log grows by its one request, and
    perhaps a print. *)
Lemma search_articles_log (query : string) (max_results : option Z) (l l1 : log)
    (outcome : result Py.value) :
  search_articles json_loads self query max_results l = (outcome, l1) ->
  l1 = search_request self query max_results :: l
  \/ exists message e,
       l1 = Print message e :: search_request self query max_results :: l.
Proof.
  rewrite search_articles_cases. cbv zeta.
  destruct (session self _) as [e|r].
  - destruct (is_request_exception e); intros H; injection H as _ <-;
      [right; now eexists; eexists|now left].
  - destruct (transport_failure (Requests.Responds r)).
    + intros H; injection H as _ <-. right. now eexists; eexists.
    + destruct (json_loads (Requests.text r)) as [data|e].
      * intros H; injection H as _ <-. now left.
      * destruct (is_request_exception e); intros H; injection H as _ <-;
          [right; now eexists; eexists|now left].
Qed.

Lemma search_articles_requests (query : string) (max_results : option Z) (l l1 : log)
    (outcome : result Py.value) :
  search_articles json_loads self query max_results l = (outcome, l1) ->
  requests_of l1 = requests_of l ++ [Py.fstring [base_url self; "/esearch.fcgi"]].
Proof.
  intros Hrun. apply search_articles_log in Hrun.
  destruct Hrun as [->|[message [e ->]]]; rewrite !requests_cons;
    now rewrite ?app_nil_r.
Qed.

Lemma search_traffic (query : string) (max_results : option Z) (l l1 : log)
    (outcome : result Py.value) :
  search_articles json_loads self query max_results l = (outcome, l1) ->
  traffic l1 = traffic l ++ [search_request self query max_results].
Proof.
  intros Hrun. apply search_articles_log in Hrun.
  destruct Hrun as [->|[message [e ->]]]; rewrite !traffic_cons;
    now rewrite ?app_nil_r.
Qed.


(** [fetch_article_details] on identifiers that join, outcome by outcome
    of its request and of the parsing. *)
Lemma fetch_article_details_joined (article_ids : Py.value) (strs : list string) (l : log) :
  Py.truthy article_ids = true ->
  id_strings article_ids = Some strs ->
  fetch_article_details fromstring self article_ids l
  = let request := fetch_request self (String.concat "," strs) in
    let caught e :=
      (Ok [], Print "Error fetching article details: " e :: request :: l) in
    match session self (request :: l) with
    | Requests.Raises e =>
        if is_request_exception e then caught e else (Raise e, request :: l)
    | Requests.Responds r =>
        if transport_failure (Requests.Responds r)
        then caught (RequestException HTTPError)
        else match fromstring (Requests.text r) with
             | Ok root =>
                 (Ok (flat_map (fun entry =>
                                  match _extract_article_data entry with
                                  | Some a => [a]
                                  | None => []
                                  end)
                               (article_entries root)), request :: l)
             | Raise ParseError => (Ok [], request :: l)
             | Raise e =>
                 if is_request_exception e then caught e else (Raise e, request :: l)
             end
    end.
Proof.
  intros Hsome Hstrs.
  unfold fetch_article_details. rewrite Hsome. cbn [negb].
  unfold bind at 1, str_join. unfold id_strings in Hstrs.
  destruct (Py.iterate article_ids) as [items|]; [|discriminate].
  rewrite Hstrs. unfold ret at 1. cbv zeta.
  unfold try_except_RequestException, bind, session_get, fetch_request.
  destruct (session self _) as [e|r]; [now destruct e|].
  unfold raise_for_status, transport_failure.
  destruct ((400 <=? Requests.status_code r)%Z && (Requests.status_code r <? 600)%Z);
    [reflexivity|].
  unfold ret.
  destruct (fromstring (Requests.text r)) as [root|e] eqn:Hroot.
  - now rewrite (parse_xml_response_parsed fromstring _ root _ Hroot).
  - destruct e;
      try (rewrite (parse_xml_response_raises fromstring _ _ _ Hroot ltac:(discriminate));
           reflexivity).
    now rewrite (parse_xml_response_rejected fromstring _ _ Hroot).
Qed.

Lemma fetch_article_details_unjoinable (article_ids : Py.value) (l : log) :
  Py.truthy article_ids = true ->
  id_strings article_ids = None ->
  fetch_article_details fromstring self article_ids l = (Raise TypeError, l).
Proof.
  intros Hsome Hstrs.
  unfold fetch_article_details. rewrite Hsome. cbn [negb].
  unfold bind, str_join. unfold id_strings in Hstrs.
  destruct (Py.iterate article_ids) as [items|]; [|reflexivity].
  now rewrite Hstrs.
Qed.

(** Whatever the fetch of joined identifiers does, its one request is all
    its traffic. *)
Lemma fetch_traffic (article_ids : Py.value) (strs : list string) (l l' : log)
    (outcome : result (list article)) :
  Py.truthy article_ids = true ->
  id_strings article_ids = Some strs ->
  fetch_article_details fromstring self article_ids l = (outcome, l') ->
  traffic l' = traffic l ++ [fetch_request self (String.concat "," strs)].
Proof.
  intros Hsome Hstrs.
  rewrite (fetch_article_details_joined article_ids strs l Hsome Hstrs). cbv zeta.
  destruct (session self _) as [e|r].
  - destruct (is_request_exception e); intros H; injection H as _ <-;
      rewrite !traffic_cons; now rewrite ?app_nil_r.
  - destruct (transport_failure (Requests.Responds r)).
    + intros H; injection H as _ <-. rewrite !traffic_cons. now rewrite app_nil_r.
    + destruct (fromstring (Requests.text r)) as [root|e].
      * intros H; injection H as _ <-. now rewrite traffic_cons.
      * destruct e; cbn [is_request_exception]; intros H; injection H as _ <-;
          rewrite !traffic_cons; now rewrite ?app_nil_r.
Qed.

(** What the fetch of joined identifiers returns, when it returns: no
    record, or the records of the entries of the document it was sent. *)
Lemma fetch_records (article_ids : Py.value) (strs : list string) (l l' : log)
    (fetched : list article) :
  Py.truthy article_ids = true ->
  id_strings article_ids = Some strs ->
  fetch_article_details fromstring self article_ids l = (Ok fetched, l') ->
  fetched = []
  \/ exists r root,
       session self (fetch_request self (String.concat "," strs) :: l) = Requests.Responds r
       /\ fromstring (Requests.text r) = Ok root
       /\ fetched = flat_map (fun entry =>
                                match _extract_article_data entry with
                                | Some a => [a]
                                | None => []
                                end)
                             (article_entries root).
Proof.
  intros Hsome Hstrs.
  rewrite (fetch_article_details_joined article_ids strs l Hsome Hstrs). cbv zeta.
  destruct (session self _) as [e|r].
  - destruct (is_request_exception e); [|discriminate].
    intros H; injection H as <- _. now left.
  - destruct (transport_failure (Requests.Responds r)).
    + intros H; injection H as <- _. now left.
    + destruct (fromstring (Requests.text r)) as [root|e] eqn:Hroot.
      * intros H; injection H as <- _. right. now exists r, root.
      * destruct e; cbn [is_request_exception]; try discriminate;
          intros H; injection H as <- _; now left.
Qed.

(** With a tame session and a tame XML parser the fetch of joined
    identifiers returns. *)
Lemma fetch_returns (article_ids : Py.value) (strs : list string) (l : log) :
  tame_session self ->
  tame_xml fromstring self ->
  Py.truthy article_ids = true ->
  id_strings article_ids = Some strs ->
  exists fetched l', fetch_article_details fromstring self article_ids l = (Ok fetched, l').
Proof.
  intros Hsession Hxml Hsome Hstrs.
  rewrite (fetch_article_details_joined article_ids strs l Hsome Hstrs). cbv zeta.
  destruct (session self _) as [e|r] eqn:Hresp.
  - rewrite (Hsession _ e Hresp). now eexists; eexists.
  - destruct (transport_failure (Requests.Responds r)) eqn:Hfail; [now eexists; eexists|].
    destruct (fromstring (Requests.text r)) as [root|e] eqn:Hroot;
      [now eexists; eexists|].
    rewrite (Hxml _ l r e Hresp Hfail Hroot). now eexists; eexists.
Qed.

(** The page of a parsed record is asked for at the record's [url]. *)
Lemma record_page (entry : ET.Element) (a : article) :
  _extract_article_data entry = Some a ->
  page_request (pmid a) = Get (url a) [] 15.
Proof.
  unfold _extract_article_data.
  destruct (ET.find [ET.Descendant "MedlineCitation"] entry) as [medline|]; [|discriminate].
  intros Ha. apply some_eq in Ha. subst a. reflexivity.
Qed.

Lemma fetched_pages (article_ids : Py.value) (strs : list string) (l l' : log)
    (fetched : list article) :
  Py.truthy article_ids = true ->
  id_strings article_ids = Some strs ->
  fetch_article_details fromstring self article_ids l = (Ok fetched, l') ->
  Forall (fun a => page_request (pmid a) = Get (url a) [] 15) fetched.
Proof.
  intros Hsome Hstrs Hfetch.
  destruct (fetch_records article_ids strs l l' fetched Hsome Hstrs Hfetch)
    as [->|[r [root [_ [_ ->]]]]]; [constructor|].
  apply Forall_forall. intros a Ha. apply in_flat_map in Ha.
  destruct Ha as [entry [_ Ha]].
  destruct (_extract_article_data entry) as [a'|] eqn:He; [|contradiction].
  destruct Ha as [<-|[]]. exact (record_page entry a' He).
Qed.

(* ================================================================== *)
(** ** The orchestration *)

(** Whatever the extractor does, its one request is all its traffic. *)
Lemma scrape_traffic (pmid : option string) (l l' : log) (outcome : result page_extra) :
  scrape_full_article_page BeautifulSoup self pmid l = (outcome, l') ->
  traffic l' = traffic l ++ [page_request pmid].
Proof.
  rewrite scrape_cases. cbv zeta.
  destruct (session self _) as [e|r].
  - destruct (is_request_exception e); intros H; injection H as _ <-;
      rewrite !traffic_cons; now rewrite ?app_nil_r.
  - destruct (transport_failure (Requests.Responds r)).
    + intros H; injection H as _ <-. rewrite !traffic_cons. now rewrite app_nil_r.
    + destruct (BeautifulSoup (Requests.text r)) as [soup|e].
      * intros H; injection H as _ <-. now rewrite traffic_cons.
      * destruct (is_request_exception e); intros H; injection H as _ <-;
          rewrite !traffic_cons; now rewrite ?app_nil_r.
Qed.

(** The loop, when it returns: one enriched record per record, in order,
    each with its [url]; one page request and one sleep per record. *)
Lemma enrich_returned (articles : list article) :
  forall (l l' : log) (returned : list article),
    enrich BeautifulSoup self articles l = (Ok returned, l') ->
    Forall2 (enriched BeautifulSoup self) articles returned
    /\ map url returned = map url articles
    /\ traffic l'
       = traffic l ++ flat_map (fun a => [page_request (pmid a); Sleep 0.5]) articles.
Proof.
  induction articles as [|a articles IH]; intros l l' returned.
  - cbn [enrich]. unfold ret. intros H. injection H as <- <-.
    split; [constructor|]. split; [reflexivity|]. now rewrite app_nil_r.
  - cbn [enrich]. unfold bind at 1.
    destruct (scrape_full_article_page BeautifulSoup self (pmid a) l)
      as [[extra|e] l1] eqn:Hscrape; [|discriminate].
    unfold bind at 1, sleep, emit. unfold bind at 1.
    destruct (enrich BeautifulSoup self articles (Sleep 0.5 :: l1))
      as [[rest|e] l2] eqn:Hrest; [|discriminate].
    unfold ret. intros H. injection H as <- <-.
    destruct (IH _ _ _ Hrest) as [Hall [Hurls Htraffic]].
    split; [|split].
    + constructor; [|exact Hall].
      exists extra, l. rewrite Hscrape. split; [reflexivity|]. split; [reflexivity|].
      intros Hfail.
      destruct (scrape_degrades BeautifulSoup self (pmid a) l Hfail) as [e He].
      rewrite Hscrape in He. injection He as -> _. reflexivity.
    + cbn [map]. now rewrite Hurls.
    + rewrite Htraffic, traffic_cons, (scrape_traffic _ _ _ _ Hscrape).
      cbn [flat_map]. rewrite <- !app_assoc. reflexivity.
Qed.

(** Whatever the loop does, it causes page requests and sleeps only. *)
Lemma enrich_traffic (articles : list article) :
  forall (l l' : log) (outcome : result (list article)),
    enrich BeautifulSoup self articles l = (outcome, l') ->
    exists visited,
      traffic l' = traffic l ++ visited
      /\ Forall (fun ev => retmax_of ev = None) visited.
Proof.
  induction articles as [|a articles IH]; intros l l' outcome.
  - cbn [enrich]. unfold ret. intros H. injection H as _ <-.
    exists []. split; [now rewrite app_nil_r|constructor].
  - cbn [enrich]. unfold bind at 1.
    destruct (scrape_full_article_page BeautifulSoup self (pmid a) l)
      as [[extra|e] l1] eqn:Hscrape.
    + unfold bind at 1, sleep, emit. unfold bind at 1.
      destruct (enrich BeautifulSoup self articles (Sleep 0.5 :: l1))
        as [found l2] eqn:Hrest.
      destruct (IH _ _ _ Hrest) as [visited [Htraffic Hquiet]].
      intros H.
      assert (Hlog : l' = l2) by (destruct found; injection H as _ <-; reflexivity).
      subst l2. exists (page_request (pmid a) :: Sleep 0.5 :: visited). split.
      * rewrite Htraffic, traffic_cons, (scrape_traffic _ _ _ _ Hscrape).
        rewrite <- !app_assoc. reflexivity.
      * now repeat constructor.
    + intros H. injection H as _ <-.
      exists [page_request (pmid a)]. split; [exact (scrape_traffic _ _ _ _ Hscrape)|].
      now repeat constructor.
Qed.

(** With a tame session and a tame page parser the loop returns. *)
Lemma enrich_returns (articles : list article) (l : log) :
  tame_session self ->
  tame_soup BeautifulSoup self ->
  exists returned l', enrich BeautifulSoup self articles l = (Ok returned, l').
Proof.
  intros Hsession Hsoup. revert l.
  induction articles as [|a articles IH]; intros l; [now exists [], l|].
  cbn [enrich]. unfold bind at 1.
  destruct (scrape_returns BeautifulSoup self (pmid a) l Hsession Hsoup)
    as [extra [l1 Hscrape]].
  rewrite Hscrape. unfold bind at 1, sleep, emit. unfold bind.
  destruct (IH (Sleep 0.5 :: l1)) as [returned [l' Hrest]].
  rewrite Hrest. now eexists; eexists.
Qed.


Lemma page_visits_by_url (articles returned : list article) :
  Forall (fun a => page_request (pmid a) = Get (url a) [] 15) articles ->
  map url returned = map url articles ->
  flat_map (fun a => [page_request (pmid a); Sleep 0.5]) articles
  = flat_map page_visit returned.
Proof.
  revert returned. induction articles as [|a articles IH]; intros returned Hall Hurls.
  - destruct returned; [reflexivity|discriminate].
  - destruct returned as [|a' returned]; [discriminate|].
    inversion Hall as [|? ? Ha Hrest]; subst.
    cbn [map] in Hurls. injection Hurls as Hurl Hurls.
    cbn [flat_map]. rewrite (IH returned Hrest Hurls).
    unfold page_visit. now rewrite Ha, Hurl.
Qed.

End Pipeline.

(** A run of [get_research_data], stage by stage, however it ends. *)
Lemma pipeline_run
    (json_loads : string -> result Py.value) (fromstring : string -> result ET.Element)
    (BeautifulSoup : string -> result BS.PageElement) (self : PubMedScraper)
    (query : string) (max_results : option Z) (l l' : log)
    (outcome : result (list article)) :
  get_research_data json_loads fromstring BeautifulSoup self query max_results l
  = (outcome, l') ->
  exists found l1,
    search_articles json_loads self query max_results l = (found, l1)
    /\ traffic l1 = traffic l ++ [search_request self query max_results]
    /\ match found with
       | Raise e => outcome = Raise e /\ l' = l1
       | Ok article_ids =>
           if Py.truthy article_ids
           then match id_strings article_ids with
                | None => outcome = Raise TypeError /\ l' = l1
                | Some strs =>
                    exists visited,
                      traffic l'
                      = traffic l1 ++ fetch_request self (String.concat "," strs) :: visited
                      /\ Forall (fun ev => retmax_of ev = None) visited
                      /\ forall returned,
                           outcome = Ok returned -> visited = flat_map page_visit returned
                end
           else outcome = Ok [] /\ l' = l1
       end.
Proof.
  intros Hrun.
  destruct (search_articles json_loads self query max_results l) as [found l1] eqn:Hsearch.
  exists found, l1. split; [reflexivity|].
  split; [exact (search_traffic json_loads self query max_results l l1 found Hsearch)|].
  unfold get_research_data, bind in Hrun. rewrite Hsearch in Hrun.
  destruct found as [article_ids|e]; [|injection Hrun as <- <-; now split].
  destruct (Py.truthy article_ids) eqn:Hsome; cbn [negb] in Hrun;
    [|injection Hrun as <- <-; now split].
  destruct (id_strings article_ids) as [strs|] eqn:Hstrs.
  - destruct (fetch_article_details fromstring self article_ids l1)
      as [[fetched|e] l2] eqn:Hfetch.
    + pose proof (fetch_traffic fromstring self article_ids strs l1 l2 _ Hsome Hstrs Hfetch)
        as Htraffic.
      destruct (enrich_traffic BeautifulSoup self fetched l2 l' outcome Hrun)
        as [visited [Hvisited Hquiet]].
      exists visited. split; [|split; [exact Hquiet|]].
      * rewrite Hvisited, Htraffic, <- app_assoc. reflexivity.
      * intros returned ->.
        destruct (enrich_returned BeautifulSoup self fetched l2 l' returned Hrun)
          as [_ [Hurls Hvisits]].
        rewrite Hvisited in Hvisits. apply app_inv_head in Hvisits. rewrite Hvisits.
        apply page_visits_by_url; [|exact Hurls].
        exact (fetched_pages fromstring self article_ids strs l1 l2 fetched
                 Hsome Hstrs Hfetch).
    + injection Hrun as <- <-.
      exists []. split; [|split; [constructor|discriminate]].
      exact (fetch_traffic fromstring self article_ids strs l1 l2 _ Hsome Hstrs Hfetch).
  - rewrite (fetch_article_details_unjoinable fromstring self article_ids l1 Hsome Hstrs)
      in Hrun.
    injection Hrun as <- <-. now split.
Qed.

(** With tame libraries, a run whose search found nothing, or identifiers
    that join, returns. *)
Lemma pipeline_returns
    (json_loads : string -> result Py.value) (fromstring : string -> result ET.Element)
    (BeautifulSoup : string -> result BS.PageElement) (self : PubMedScraper)
    (query : string) (max_results : option Z) (l l1 : log) (article_ids : Py.value) :
  tame_session self ->
  tame_xml fromstring self ->
  tame_soup BeautifulSoup self ->
  search_articles json_loads self query max_results l = (Ok article_ids, l1) ->
  (Py.truthy article_ids = false \/ exists strs, id_strings article_ids = Some strs) ->
  exists returned l',
    get_research_data json_loads fromstring BeautifulSoup self query max_results l
    = (Ok returned, l').
Proof.
  intros Hsession Hxml Hsoup Hsearch Hids.
  unfold get_research_data, bind. rewrite Hsearch.
  destruct (Py.truthy article_ids) eqn:Hsome; cbn [negb]; [|now eexists; eexists].
  destruct Hids as [Hnone|[strs Hstrs]]; [discriminate|].
  destruct (fetch_returns fromstring self article_ids strs l1 Hsession Hxml Hsome Hstrs)
    as [fetched [l2 Hfetch]].
  rewrite Hfetch. exact (enrich_returns BeautifulSoup self fetched l2 Hsession Hsoup).
Qed.



Lemma sample_fromstring_tame (self : PubMedScraper) : tame_xml sample_fromstring self.
Proof.
  intros ids_str l r e _ _. unfold sample_fromstring.
  repeat match goal with |- context [if ?c then _ else _] => destruct c end;
    intros H; try discriminate. now injection H as <-.
Qed.

Lemma sample_BeautifulSoup_tame (self : PubMedScraper) : tame_soup sample_BeautifulSoup self.
Proof.
  intros pmid l r e _ _. unfold sample_BeautifulSoup.
  now destruct (Requests.text r =? PAGE).
Qed.

Lemma scraper_with_tame (search fetched page : Requests.outcome) :
  (forall e, search = Requests.Raises e -> is_request_exception e = true) ->
  (forall e, fetched = Requests.Raises e -> is_request_exception e = true) ->
  (forall e, page = Requests.Raises e -> is_request_exception e = true) ->
  tame_session (scraper_with search fetched page).
Proof.
  intros Hsearch Hfetched Hpage l e.
  unfold scraper_with, __init__, servers. cbn [session].
  destruct l as [|[url params timeout|seconds|message e'] l].
  - intros H. now injection H as <-.
  - destruct (url =? _); [apply Hsearch|]. destruct (url =? _); [apply Hfetched|apply Hpage].
  - intros H. now injection H as <-.
  - intros H. now injection H as <-.
Qed.

Lemma answering_scraper_tame (search fetched page : string) :
  tame_session (scraper_with (ok search) (ok fetched) (ok page)).
Proof.
  apply scraper_with_tame; discriminate.
Qed.


(** C6.  When the search resolver yields no identifier (an empty list, or
    any value Python takes for false), [get_research_data] returns the
    empty list at once: the log is the one the search left, whose only
    new request is the search itself. *)
Theorem no_identifiers_no_further_calls
    (json_loads : string -> result Py.value) (fromstring : string -> result ET.Element)
    (BeautifulSoup : string -> result BS.PageElement) (self : PubMedScraper)
    (query : string) (max_results : option Z) (l l1 : log) (article_ids : Py.value) :
  search_articles json_loads self query max_results l = (Ok article_ids, l1) ->
  Py.truthy article_ids = false ->
  get_research_data json_loads fromstring BeautifulSoup self query max_results l
  = (Ok [], l1)
  /\ requests_of l1 = requests_of l ++ [Py.fstring [base_url self; "/esearch.fcgi"]].
Proof.
  intros Hsearch Hempty. split.
  - unfold get_research_data, bind. now rewrite Hsearch, Hempty.
  - exact (search_articles_requests json_loads self query max_results l l1 _ Hsearch).
Qed.

Lemma no_identifiers_witness :
  search_articles sample_json_loads fruitless_scraper "zzzznonexistentzzz" None []
  = (Ok (Py.PList []), [search_request fruitless_scraper "zzzznonexistentzzz" None])
  /\ Py.truthy (Py.PList []) = false
  /\ get_research_data sample_json_loads sample_fromstring sample_BeautifulSoup
       fruitless_scraper "zzzznonexistentzzz" None []
     = (Ok [], [search_request fruitless_scraper "zzzznonexistentzzz" None]).
Proof.
  split; [reflexivity|]. split; [reflexivity|].
  exact (proj1 (no_identifiers_no_further_calls sample_json_loads sample_fromstring
                  sample_BeautifulSoup fruitless_scraper "zzzznonexistentzzz" None []
                  [search_request fruitless_scraper "zzzznonexistentzzz" None]
                  (Py.PList []) eq_refl eq_refl)).
Defined.








(** C3, as written, fails: asked for one record, with one identifier
    resolved, the pipeline returns the two records of [XML_TWO]. *)
Lemma more_records_than_requested :
  search_articles sample_json_loads generous_scraper "stroke" (Some 1%Z) []
  = (Ok (Py.PList [Py.PStr "12345678"]),
     [search_request generous_scraper "stroke" (Some 1%Z)])
  /\ exists first second l,
       get_research_data sample_json_loads sample_fromstring sample_BeautifulSoup
         generous_scraper "stroke" (Some 1%Z) []
       = (Ok [first; second], l)
       /\ pmid first = Some "12345678"
       /\ pmid second = Some "87654321".
Proof.
  split; [reflexivity|]. do 3 eexists.
  split; [vm_compute; reflexivity|]. split; reflexivity.
Qed.

(** C3, amended.  When the search endpoint honours the bound (it resolves
    at most as many identifiers as requested) and the fetch endpoint sends
    at most one article entry per identifier asked for, the records
    returned are at most the bound and at most the identifiers resolved;
    and records are returned whenever [session.get] raises nothing but
    [RequestException]s, [ET.fromstring] nothing but [ParseError] and the
    page parser nothing. *)
Theorem record_count_follows_the_upstream
    (json_loads : string -> result Py.value) (fromstring : string -> result ET.Element)
    (BeautifulSoup : string -> result BS.PageElement) (self : PubMedScraper)
    (query : string) (max_results : option Z) (l l1 : log) (ids : list string) :
  search_articles json_loads self query max_results l
  = (Ok (Py.PList (map Py.PStr ids)), l1) ->
  (Z.of_nat (List.length ids) <= requested max_results)%Z ->
  (forall r root,
     session self (fetch_request self (String.concat "," ids) :: l1) = Requests.Responds r ->
     fromstring (Requests.text r) = Ok root ->
     List.length (article_entries root) <= List.length ids) ->
  (forall records l',
     get_research_data json_loads fromstring BeautifulSoup self query max_results l
     = (Ok records, l') ->
     (Z.of_nat (List.length records) <= requested max_results)%Z
     /\ List.length records <= List.length ids)
  /\ (tame_session self ->
      tame_xml fromstring self ->
      tame_soup BeautifulSoup self ->
      exists records l',
        get_research_data json_loads fromstring BeautifulSoup self query max_results l
        = (Ok records, l')).
Proof.
  intros Hsearch Hbound Hentries. split.
  - intros records l' Hrun.
    enough (Hcount : List.length records <= List.length ids) by (split; lia).
    unfold get_research_data, bind in Hrun. rewrite Hsearch in Hrun.
    destruct (Py.truthy (Py.PList (map Py.PStr ids))) eqn:Hsome; cbn [negb] in Hrun.
    2:{ injection Hrun as <- _. simpl. lia. }
    destruct (fetch_article_details fromstring self (Py.PList (map Py.PStr ids)) l1)
      as [[fetched|e] l2] eqn:Hfetch; [|discriminate].
    destruct (enrich_returned BeautifulSoup self fetched l2 l' records Hrun) as [Hall _].
    rewrite <- (Forall2_length Hall).
    destruct (fetch_records fromstring self (Py.PList (map Py.PStr ids)) ids l1 l2 fetched
                Hsome (all_str_map ids) Hfetch) as [->|[r [root [Hresp [Hroot ->]]]]].
    + simpl. lia.
    + specialize (Hentries r root Hresp Hroot).
      rewrite flat_map_optional_length.
      pose proof (filter_length_le
                    (fun entry => match _extract_article_data entry with
                                  | Some _ => true
                                  | None => false
                                  end)
                    (article_entries root)).
      lia.
  - intros Hsession Hxml Hsoup.
    apply (pipeline_returns json_loads fromstring BeautifulSoup self query max_results
             l l1 (Py.PList (map Py.PStr ids)) Hsession Hxml Hsoup Hsearch).
    right. exists ids. apply all_str_map.
Qed.

Lemma record_count_witness :
  search_articles sample_json_loads stroke_scraper "stroke" (Some 1%Z) []
  = (Ok (Py.PList (map Py.PStr ["12345678"])),
     [search_request stroke_scraper "stroke" (Some 1%Z)])
  /\ (Z.of_nat (List.length ["12345678"]) <= requested (Some 1%Z))%Z
  /\ (forall r root,
        session stroke_scraper
          [fetch_request stroke_scraper (String.concat "," ["12345678"]);
           search_request stroke_scraper "stroke" (Some 1%Z)]
        = Requests.Responds r ->
        sample_fromstring (Requests.text r) = Ok root ->
        List.length (article_entries root) <= List.length ["12345678"])
  /\ exists records l',
       get_research_data sample_json_loads sample_fromstring sample_BeautifulSoup
         stroke_scraper "stroke" (Some 1%Z) []
       = (Ok records, l')
       /\ List.length records <= 1.
Proof.
  assert (Hentries : forall r root,
            session stroke_scraper
              [fetch_request stroke_scraper (String.concat "," ["12345678"]);
               search_request stroke_scraper "stroke" (Some 1%Z)]
            = Requests.Responds r ->
            sample_fromstring (Requests.text r) = Ok root ->
            List.length (article_entries root) <= List.length ["12345678"]).
  { intros r root Hresp Hroot.
    injection Hresp as <-. injection Hroot as <-. simpl. lia. }
  assert (Hbound : (Z.of_nat (List.length ["12345678"]) <= requested (Some 1%Z))%Z)
    by (simpl; lia).
  split; [reflexivity|]. split; [exact Hbound|]. split; [exact Hentries|].
  destruct (record_count_follows_the_upstream sample_json_loads sample_fromstring
              sample_BeautifulSoup stroke_scraper "stroke" (Some 1%Z) []
              [search_request stroke_scraper "stroke" (Some 1%Z)] ["12345678"]
              eq_refl Hbound Hentries)
    as [Hcount Hreturns].
  destruct (Hreturns (answering_scraper_tame SEARCH_ONE XML_ONE PAGE)
              (sample_fromstring_tame stroke_scraper)
              (sample_BeautifulSoup_tame stroke_scraper))
    as [records [l' Hrun]].
  exists records, l'. split; [exact Hrun|]. exact (proj2 (Hcount records l' Hrun)).
Defined.

(* ================================================================== *)
(** ** Requests and pacing *)



(** X5.  A search body that decodes to an object without [esearchresult],
    or whose [esearchresult] is an object without [idlist], counts as no
    identifier: [search_articles] returns the empty list without logging
    an error, and [get_research_data] returns the empty list after that
    one request. *)
Theorem search_without_idlist
    (json_loads : string -> result Py.value) (fromstring : string -> result ET.Element)
    (BeautifulSoup : string -> result BS.PageElement) (self : PubMedScraper)
    (query : string) (max_results : option Z) (l : log)
    (r : Requests.Response) (entries : list (string * Py.value)) :
  session self (search_request self query max_results :: l) = Requests.Responds r ->
  transport_failure (Requests.Responds r) = false ->
  json_loads (Requests.text r) = Ok (Py.PDict entries) ->
  (Py.assoc "esearchresult" entries = None
   \/ exists result_entries,
        Py.assoc "esearchresult" entries = Some (Py.PDict result_entries)
        /\ Py.assoc "idlist" result_entries = None) ->
  search_articles json_loads self query max_results l
  = (Ok (Py.PList []), search_request self query max_results :: l)
  /\ get_research_data json_loads fromstring BeautifulSoup self query max_results l
     = (Ok [], search_request self query max_results :: l).
Proof.
  intros Hresp Hok Hdata Hmissing.
  assert (Hsearch : search_articles json_loads self query max_results l
                    = (Ok (Py.PList []), search_request self query max_results :: l)).
  { rewrite search_articles_cases. cbv zeta. rewrite Hresp, Hok, Hdata. unfold idlist_of.
    destruct Hmissing as [->|[result_entries [-> ->]]]; reflexivity. }
  split; [exact Hsearch|].
  unfold get_research_data, bind. now rewrite Hsearch.
Qed.

Lemma search_without_idlist_witness :
  session bare_scraper [search_request bare_scraper "stroke" None] = ok SEARCH_BARE
  /\ transport_failure (ok SEARCH_BARE) = false
  /\ more_json_loads SEARCH_BARE = Ok (Py.PDict [("esearchresult", Py.PDict [])])
  /\ get_research_data more_json_loads sample_fromstring sample_BeautifulSoup
       bare_scraper "stroke" None []
     = (Ok [], [search_request bare_scraper "stroke" None]).
Proof.
  split; [reflexivity|]. split; [reflexivity|]. split; [reflexivity|].
  refine (proj2 (search_without_idlist more_json_loads sample_fromstring
                   sample_BeautifulSoup bare_scraper "stroke" None []
                   {| Requests.status_code := 200; Requests.text := SEARCH_BARE |}
                   [("esearchresult", Py.PDict [])] eq_refl eq_refl eq_refl _)).
  right. exists []. split; reflexivity.
Defined.

(** X6.  A run of [get_research_data] that returns has searched, and
    what else it did is decided by what the search found.  If that is
    false for Python, nothing more: no record is returned and the search
    is the only request.  Otherwise the identifiers join, and the run
    has issued, in this order and nothing else: the search, the one batch
    fetch for the comma-joined identifiers and, for each returned record
    in order, the request of the page at the record's own [url] followed
    by a sleep of half a second. *)
Theorem traffic_of_a_run
    (json_loads : string -> result Py.value) (fromstring : string -> result ET.Element)
    (BeautifulSoup : string -> result BS.PageElement) (self : PubMedScraper)
    (query : string) (max_results : option Z) (l l' : log) (returned : list article) :
  get_research_data json_loads fromstring BeautifulSoup self query max_results l
  = (Ok returned, l') ->
  exists article_ids l1,
    search_articles json_loads self query max_results l = (Ok article_ids, l1)
    /\ if Py.truthy article_ids
       then exists strs,
              id_strings article_ids = Some strs
              /\ traffic l'
                 = traffic l ++ search_request self query max_results
                                :: fetch_request self (String.concat "," strs)
                                :: flat_map page_visit returned
       else returned = []
            /\ traffic l' = traffic l ++ [search_request self query max_results].
Proof.
  intros Hrun.
  destruct (pipeline_run json_loads fromstring BeautifulSoup self query max_results
              l l' (Ok returned) Hrun) as [found [l1 [Hsearch [Htraffic Hstage]]]].
  destruct found as [article_ids|e]; [|destruct Hstage as [Hout _]; discriminate].
  exists article_ids, l1. split; [exact Hsearch|].
  destruct (Py.truthy article_ids).
  - destruct (id_strings article_ids) as [strs|];
      [|destruct Hstage as [Hout _]; discriminate].
    destruct Hstage as [visited [Hvisited [_ Hvisits]]].
    exists strs. split; [reflexivity|].
    rewrite Hvisited, Htraffic, <- app_assoc, (Hvisits returned eq_refl). reflexivity.
  - destruct Hstage as [Hout ->]. injection Hout as ->. now split.
Qed.

Lemma traffic_witness :
  exists returned l',
    get_research_data sample_json_loads sample_fromstring sample_BeautifulSoup
      generous_scraper "stroke" (Some 1%Z) []
    = (Ok returned, l')
    /\ traffic l'
       = [search_request generous_scraper "stroke" (Some 1%Z);
          fetch_request generous_scraper "12345678";
          Get "https://pubmed.ncbi.nlm.nih.gov/12345678/" [] 15; Sleep 0.5;
          Get "https://pubmed.ncbi.nlm.nih.gov/87654321/" [] 15; Sleep 0.5].
Proof.
  destruct (get_research_data sample_json_loads sample_fromstring sample_BeautifulSoup
              generous_scraper "stroke" (Some 1%Z) []) as [[returned|e] l'] eqn:Hrun;
    [|vm_compute in Hrun; discriminate].
  exists returned, l'. split; [reflexivity|].
  destruct (traffic_of_a_run sample_json_loads sample_fromstring sample_BeautifulSoup
              generous_scraper "stroke" (Some 1%Z) [] l' returned Hrun)
    as [article_ids [l1 [Hsearch Hstage]]].
  vm_compute in Hsearch. injection Hsearch as <- <-.
  cbn [Py.truthy] in Hstage. destruct Hstage as [strs [Hstrs Htraffic]].
  vm_compute in Hstrs. injection Hstrs as <-.
  rewrite Htraffic. vm_compute in Hrun. injection Hrun as <- _. reflexivity.
Defined.



(* ================================================================== *)
(** ** The search route *)

(** The route on a query that is not blank: the pipeline runs on the
    stripped query and the clamped bound, and the log is the pipeline's. *)
Lemma search_route_runs
    (json_loads : string -> result Py.value) (fromstring : string -> result ET.Element)
    (BeautifulSoup : string -> result BS.PageElement) (py_int : string -> option Z)
    (scraper : PubMedScraper) (fields : Flask.form) (l : log) :
  posted_query fields <> "" ->
  search json_loads fromstring BeautifulSoup py_int scraper fields l
  = match get_research_data json_loads fromstring BeautifulSoup scraper
            (posted_query fields)
            (Some (Z.min (Z.max 1 (form_max_results py_int fields)) 20)) l with
    | (Ok [], l') =>
        (Ok {| Flask.json :=
                 Flask.ErrorBody "No articles found. Try a different search term.";
               Flask.status := 404 |}, l')
    | (Ok (a :: rest), l') =>
        (Ok {| Flask.json := Flask.ArticlesBody (a :: rest) (List.length (a :: rest));
               Flask.status := 200 |}, l')
    | (Raise e, l') => (Raise e, l')
    end.
Proof.
  intros Hquery. unfold search. fold (posted_query fields).
  cbn [Py.truthy]. apply String.eqb_neq in Hquery. rewrite Hquery. cbn [negb].
  unfold bind.
  destruct (get_research_data _ _ _ _ _ _ l) as [[articles|e] l']; [|reflexivity].
  now destruct articles.
Qed.

(** X8.  For a query that is not blank, however the run ends, the search
    route sends the stripped query with a [retmax] between 1 and 20 that
    is read off the posted field [max_results]: 10 when the field is
    missing or is no integer; the integer posted when it lies within 1
    and 20; 1 when it is smaller and 20 when it is larger.  No other
    request of the run carries a [retmax]. *)
Theorem search_route_clamps_the_bound
    (json_loads : string -> result Py.value) (fromstring : string -> result ET.Element)
    (BeautifulSoup : string -> result BS.PageElement) (py_int : string -> option Z)
    (scraper : PubMedScraper) (fields : Flask.form) (l l' : log)
    (outcome : result Flask.response) :
  posted_query fields <> "" ->
  search json_loads fromstring BeautifulSoup py_int scraper fields l = (outcome, l') ->
  exists b rest,
    traffic l'
    = traffic l ++ search_request scraper (posted_query fields) (Some b) :: rest
    /\ Forall (fun ev => retmax_of ev = None) rest
    /\ (1 <= b <= 20)%Z
    /\ match Flask.form_get fields "max_results" with
       | None => b = 10%Z
       | Some value =>
           match py_int value with
           | None => b = 10%Z
           | Some n =>
               ((n < 1)%Z -> b = 1%Z)
               /\ ((1 <= n <= 20)%Z -> b = n)
               /\ ((20 < n)%Z -> b = 20%Z)
           end
       end.
Proof.
  intros Hquery Hrun.
  rewrite (search_route_runs json_loads fromstring BeautifulSoup py_int scraper fields l
             Hquery) in Hrun.
  destruct (get_research_data json_loads fromstring BeautifulSoup scraper
              (posted_query fields)
              (Some (Z.min (Z.max 1 (form_max_results py_int fields)) 20)) l)
    as [found l2] eqn:Hpipeline.
  assert (Hlog : l' = l2) by (destruct found as [[|a rest]|e]; congruence).
  subst l2.
  exists (Z.min (Z.max 1 (form_max_results py_int fields)) 20).
  destruct (pipeline_run json_loads fromstring BeautifulSoup scraper (posted_query fields)
              (Some (Z.min (Z.max 1 (form_max_results py_int fields)) 20))
              l l' found Hpipeline) as [ids [l1 [_ [Htraffic Hstage]]]].
  assert (Hrest : exists rest,
            traffic l' = traffic l1 ++ rest
            /\ Forall (fun ev => retmax_of ev = None) rest).
  { destruct ids as [article_ids|e].
    - destruct (Py.truthy article_ids).
      + destruct (id_strings article_ids) as [strs|].
        * destruct Hstage as [visited [Hvisited [Hquiet _]]].
          eexists. split; [exact Hvisited|].
          constructor; [reflexivity|exact Hquiet].
        * destruct Hstage as [_ ->]. exists []. now rewrite app_nil_r.
      + destruct Hstage as [_ ->]. exists []. now rewrite app_nil_r.
    - destruct Hstage as [_ ->]. exists []. now rewrite app_nil_r. }
  destruct Hrest as [rest [Hl' Hquiet]].
  exists rest. split; [|split; [exact Hquiet|split; [lia|]]].
  - rewrite Hl', Htraffic, <- app_assoc. reflexivity.
  - unfold form_max_results.
    destruct (Flask.form_get fields "max_results") as [value|]; [|reflexivity].
    destruct (py_int value) as [n|]; [|reflexivity].
    repeat split; lia.
Qed.

Lemma search_route_bound_witness :
  posted_query [("query", " stroke "); ("max_results", "5")] = "stroke"
  /\ (exists outcome l' rest,
        search sample_json_loads sample_fromstring sample_BeautifulSoup sample_int
          stroke_scraper [("query", " stroke "); ("max_results", "5")] []
        = (outcome, l')
        /\ traffic l' = search_request stroke_scraper "stroke" (Some 5%Z) :: rest)
  /\ (exists outcome l' rest,
        search sample_json_loads sample_fromstring sample_BeautifulSoup sample_int
          stroke_scraper [("query", " stroke "); ("max_results", "500")] []
        = (outcome, l')
        /\ traffic l' = search_request stroke_scraper "stroke" (Some 20%Z) :: rest).
Proof.
  split; [reflexivity|]. split.
  - destruct (search sample_json_loads sample_fromstring sample_BeautifulSoup sample_int
                stroke_scraper [("query", " stroke "); ("max_results", "5")] [])
      as [outcome l'] eqn:Hrun.
    destruct (search_route_clamps_the_bound sample_json_loads sample_fromstring
                sample_BeautifulSoup sample_int stroke_scraper
                [("query", " stroke "); ("max_results", "5")] [] l' outcome
                ltac:(discriminate) Hrun)
      as [b [rest [Htraffic [_ [_ Hb]]]]].
    exists outcome, l', rest. split; [reflexivity|].
    cbn in Hb. destruct Hb as [_ [Hb _]]. rewrite (Hb ltac:(lia)) in Htraffic.
    exact Htraffic.
  - destruct (search sample_json_loads sample_fromstring sample_BeautifulSoup sample_int
                stroke_scraper [("query", " stroke "); ("max_results", "500")] [])
      as [outcome l'] eqn:Hrun.
    destruct (search_route_clamps_the_bound sample_json_loads sample_fromstring
                sample_BeautifulSoup sample_int stroke_scraper
                [("query", " stroke "); ("max_results", "500")] [] l' outcome
                ltac:(discriminate) Hrun)
      as [b [rest [Htraffic [_ [_ Hb]]]]].
    exists outcome, l', rest. split; [reflexivity|].
    cbn in Hb. destruct Hb as [_ [_ Hb]]. rewrite (Hb ltac:(lia)) in Htraffic.
    exact Htraffic.
Defined.

(** X9.  A reply of the search route is one of three.  Status 400, for a
    blank or missing query, with nothing logged; status 404, when the
    pipeline returned no record; status 200, carrying the records the
    pipeline returned for the stripped query and the clamped bound, with
    [count] their number, which is at least one. *)
Theorem search_route_replies
    (json_loads : string -> result Py.value) (fromstring : string -> result ET.Element)
    (BeautifulSoup : string -> result BS.PageElement) (py_int : string -> option Z)
    (scraper : PubMedScraper) (fields : Flask.form) (l l' : log)
    (reply : Flask.response) :
  search json_loads fromstring BeautifulSoup py_int scraper fields l = (Ok reply, l') ->
  (posted_query fields = ""
   /\ reply = {| Flask.json := Flask.ErrorBody "Please enter a search query.";
                 Flask.status := 400 |}
   /\ l' = l)
  \/ (posted_query fields <> ""
      /\ exists articles,
           get_research_data json_loads fromstring BeautifulSoup scraper
             (posted_query fields)
             (Some (Z.min (Z.max 1 (form_max_results py_int fields)) 20)) l
           = (Ok articles, l')
           /\ ((articles = []
                /\ reply = {| Flask.json :=
                                Flask.ErrorBody
                                  "No articles found. Try a different search term.";
                              Flask.status := 404 |})
               \/ (1 <= List.length articles
                   /\ reply = {| Flask.json :=
                                   Flask.ArticlesBody articles (List.length articles);
                                 Flask.status := 200 |}))).
Proof.
  intros Hrun.
  destruct (String.eqb_spec (posted_query fields) "") as [Hblank|Hquery].
  - left. split; [exact Hblank|].
    unfold search in Hrun. fold (posted_query fields) in Hrun.
    rewrite Hblank in Hrun. cbn in Hrun. injection Hrun as <- <-. now split.
  - right. split; [exact Hquery|].
    rewrite (search_route_runs json_loads fromstring BeautifulSoup py_int scraper fields l
               Hquery) in Hrun.
    destruct (get_research_data json_loads fromstring BeautifulSoup scraper
                (posted_query fields)
                (Some (Z.min (Z.max 1 (form_max_results py_int fields)) 20)) l)
      as [[[|a rest]|e] l2]; [| |discriminate].
    + injection Hrun as <- <-. exists []. split; [reflexivity|]. left. now split.
    + injection Hrun as <- <-. exists (a :: rest). split; [reflexivity|]. right.
      split; [simpl; lia|reflexivity].
Qed.

Lemma search_route_replies_witness :
  search sample_json_loads sample_fromstring sample_BeautifulSoup sample_int
    stroke_scraper [("query", "   ")] []
  = (Ok {| Flask.json := Flask.ErrorBody "Please enter a search query.";
           Flask.status := 400 |}, [])
  /\ posted_query [("query", "   ")] = "".
Proof.
  split; [reflexivity|].
  destruct (search_route_replies sample_json_loads sample_fromstring sample_BeautifulSoup
              sample_int stroke_scraper [("query", "   ")] [] [] _ eq_refl)
    as [[Hblank _]|[Hquery _]]; [exact Hblank|].
  now contradiction Hquery.
Defined.
